(** * TruEstate sales browser: the request builder of the Next.js front end
      (frontend/src/app/page.tsx, frontend/src/services/api.ts) and the query
      engine it talks to (search, filter, stable sort, pagination, summary).

    The front end is embedded from its TypeScript source.  The FastAPI/Pandas
    back end is not part of the sources at hand; the engine below is modelled
    from the specification and the README, and every such definition says so. *)

From Stdlib Require Import List String Ascii ZArith NArith QArith Bool Lia.
From Stdlib Require Import Permutation Sorted.
From Stdlib Require Import Numbers.DecimalString Numbers.DecimalPos.
From Equations Require Import Equations.
Import ListNotations.

Local Open Scope string_scope.
Local Open Scope Z_scope.

(* ===================================================================== *)
(** ** JavaScript string primitives used by page.tsx

    A JavaScript string is a sequence of UTF-16 code units.  The model keeps
    the code units below 256 (ASCII and Latin-1), one [ascii] each; on that
    range the functions below are the ECMAScript ones. *)
(* ===================================================================== *)

Module JS.

(** ECMAScript WhiteSpace and LineTerminator code points below 256:
    TAB, LF, VT, FF, CR, SP and NBSP. *)
Definition isWhiteSpace (c : ascii) : bool :=
  let n := N_of_ascii c in
  (((9 <=? n) && (n <=? 13)) || (n =? 32) || (n =? 160))%N.

Fixpoint trimStart (s : string) : string :=
  match s with
  | EmptyString => EmptyString
  | String c s' => if isWhiteSpace c then trimStart s' else s
  end.

Fixpoint trimEnd (s : string) : string :=
  match s with
  | EmptyString => EmptyString
  | String c s' =>
      match trimEnd s' with
      | EmptyString => if isWhiteSpace c then EmptyString else String c EmptyString
      | t => String c t
      end
  end.

(** [String.prototype.trim] *)
Definition trim (s : string) : string := trimEnd (trimStart s).

(** Upper-case letters below 256: A-Z, and the Latin-1 capitals U+00C0..U+00DE
    without the multiplication sign U+00D7.  Each maps to itself plus 32. *)
Definition toLowerCaseChar (c : ascii) : ascii :=
  let n := N_of_ascii c in
  if (((65 <=? n) && (n <=? 90)) ||
      ((192 <=? n) && (n <=? 222) && negb (n =? 215)))%N
  then ascii_of_N (n + 32) else c.

(** [String.prototype.toLowerCase] *)
Fixpoint toLowerCase (s : string) : string :=
  match s with
  | EmptyString => EmptyString
  | String c s' => String (toLowerCaseChar c) (toLowerCase s')
  end.

(** [String.prototype.split] with a one-character separator, which is what
    both call sites pass ('-' and '_').  The result is never empty: the empty
    string splits into one empty piece. *)
Fixpoint split (sep : ascii) (s : string) : list string :=
  match s with
  | EmptyString => [EmptyString]
  | String c s' =>
      if Ascii.eqb c sep then EmptyString :: split sep s'
      else match split sep s' with
           | [] => [String c EmptyString]
           | piece :: pieces => String c piece :: pieces
           end
  end.

(** [const [a, b] = arr]: the first two elements, [None] standing for
    [undefined]. *)
Definition destructure2 (arr : list string) : option string * option string :=
  (nth_error arr 0, nth_error arr 1).

(** Truthiness of a string, and of a possibly undefined string. *)
Definition truthy (s : string) : bool :=
  match s with EmptyString => false | _ => true end.

Definition truthy_opt (o : option string) : bool :=
  match o with Some s => truthy s | None => false end.

(** [String.prototype.endsWith] *)
Fixpoint endsWith (s suffix : string) : bool :=
  String.eqb s suffix ||
  match s with
  | EmptyString => false
  | String _ s' => endsWith s' suffix
  end.

Fixpoint drop (n : nat) (s : string) : string :=
  match n, s with
  | O, _ => s
  | S _, EmptyString => EmptyString
  | S n', String _ s' => drop n' s'
  end.

(** [String.prototype.replace] with a string pattern: only the first
    occurrence is replaced.  The replacement is taken literally (the call
    site passes the empty string). *)
Fixpoint replace (pat rep s : string) : string :=
  if String.prefix pat s then rep ++ drop (String.length pat) s
  else match s with
       | EmptyString => EmptyString
       | String c s' => String c (replace pat rep s')
       end.

Definition digit (c : ascii) : option Z :=
  let n := N_of_ascii c in
  if ((48 <=? n) && (n <=? 57))%N then Some (Z.of_N (n - 48)) else None.

(** The longest prefix of decimal digits, read as a number; [acc] is [None]
    until a digit has been seen. *)
Fixpoint parseDigits (acc : option Z) (s : string) : option Z :=
  match s with
  | EmptyString => acc
  | String c s' =>
      match digit c with
      | Some d =>
          parseDigits (Some (10 * match acc with Some a => a | None => 0 end + d)) s'
      | None => acc
      end
  end.

(** [parseInt(s, 10)]: leading white space is skipped, one sign is read, then
    as many decimal digits as there are; [None] is [NaN].  The result is kept
    as an exact integer: the callers only compare it with 0, 150 and each
    other, and rounding to a double is monotone and exact on that range. *)
Definition parseInt (s : string) : option Z :=
  let s1 := trimStart s in
  let '(sign, s2) :=
    match s1 with
    | String "-"%char r => (-1, r)
    | String "+"%char r => (1, r)
    | _ => (1, s1)
    end in
  option_map (Z.mul sign) (parseDigits None s2).

(** [String.prototype.startsWith] *)
Definition startsWith (s prefix : string) : bool := String.prefix prefix s.

(** [Array.prototype.includes] on an array of strings. *)
Definition includes (arr : list string) (v : string) : bool :=
  existsb (String.eqb v) arr.




End JS.

(* ===================================================================== *)
(** ** Data exchanged with the API (frontend/src/services/api.ts) *)
(* ===================================================================== *)

(** [SalesTransaction]: one row of the dataset.  Counts are integers, money
    and percentages are exact rationals. *)
Record SalesTransaction := {
  transaction_id : Z;
  date : string;
  customer_id : string;
  customer_name : string;
  phone_number : string;
  gender : string;
  age : Z;
  customer_region : string;
  customer_type : string;
  product_id : string;
  product_name : string;
  brand : string;
  product_category : string;
  tags : string;
  quantity : Z;
  price_per_unit : Q;
  discount_percentage : Q;
  total_amount : Q;
  final_amount : Q;
  payment_method : string;
  order_status : string;
  delivery_type : string;
  store_id : string;
  store_location : string;
  salesperson_id : string;
  employee_name : string
}.

(** [SalesResponse] *)
Record SalesResponse := {
  transactions : list SalesTransaction;
  total : Z;
  page : Z;
  page_size : Z;
  total_pages : Z
}.

(** [SummaryStats] *)
Record SummaryStats := {
  total_units_sold : Z;
  sum_total_amount : Q;
  total_discount : Q;
  total_sales_records : Z
}.

(** [SalesQueryParams]: every key is optional; [None] is an absent key. *)
Record SalesQueryParams := {
  q_search : option string;
  q_customer_regions : option (list string);
  q_genders : option (list string);
  q_age_min : option Z;
  q_age_max : option Z;
  q_product_categories : option (list string);
  q_tags : option (list string);
  q_payment_methods : option (list string);
  q_date_from : option string;
  q_date_to : option string;
  q_sort_by : option string;
  q_sort_order : option string;
  q_page : option Z;
  q_page_size : option Z
}.

(** The object literal [{}]. *)
Definition empty_params : SalesQueryParams :=
  {| q_search := None; q_customer_regions := None; q_genders := None;
     q_age_min := None; q_age_max := None; q_product_categories := None;
     q_tags := None; q_payment_methods := None; q_date_from := None;
     q_date_to := None; q_sort_by := None; q_sort_order := None;
     q_page := None; q_page_size := None |}.

Module Params.

Definition set_search v (p : SalesQueryParams) : SalesQueryParams :=
  {| q_search := Some v; q_customer_regions := q_customer_regions p;
     q_genders := q_genders p; q_age_min := q_age_min p; q_age_max := q_age_max p;
     q_product_categories := q_product_categories p; q_tags := q_tags p;
     q_payment_methods := q_payment_methods p; q_date_from := q_date_from p;
     q_date_to := q_date_to p; q_sort_by := q_sort_by p;
     q_sort_order := q_sort_order p; q_page := q_page p;
     q_page_size := q_page_size p |}.

Definition set_customer_regions v (p : SalesQueryParams) : SalesQueryParams :=
  {| q_search := q_search p; q_customer_regions := Some v;
     q_genders := q_genders p; q_age_min := q_age_min p; q_age_max := q_age_max p;
     q_product_categories := q_product_categories p; q_tags := q_tags p;
     q_payment_methods := q_payment_methods p; q_date_from := q_date_from p;
     q_date_to := q_date_to p; q_sort_by := q_sort_by p;
     q_sort_order := q_sort_order p; q_page := q_page p;
     q_page_size := q_page_size p |}.

Definition set_genders v (p : SalesQueryParams) : SalesQueryParams :=
  {| q_search := q_search p; q_customer_regions := q_customer_regions p;
     q_genders := Some v; q_age_min := q_age_min p; q_age_max := q_age_max p;
     q_product_categories := q_product_categories p; q_tags := q_tags p;
     q_payment_methods := q_payment_methods p; q_date_from := q_date_from p;
     q_date_to := q_date_to p; q_sort_by := q_sort_by p;
     q_sort_order := q_sort_order p; q_page := q_page p;
     q_page_size := q_page_size p |}.

Definition set_age_min v (p : SalesQueryParams) : SalesQueryParams :=
  {| q_search := q_search p; q_customer_regions := q_customer_regions p;
     q_genders := q_genders p; q_age_min := Some v; q_age_max := q_age_max p;
     q_product_categories := q_product_categories p; q_tags := q_tags p;
     q_payment_methods := q_payment_methods p; q_date_from := q_date_from p;
     q_date_to := q_date_to p; q_sort_by := q_sort_by p;
     q_sort_order := q_sort_order p; q_page := q_page p;
     q_page_size := q_page_size p |}.

Definition set_age_max v (p : SalesQueryParams) : SalesQueryParams :=
  {| q_search := q_search p; q_customer_regions := q_customer_regions p;
     q_genders := q_genders p; q_age_min := q_age_min p; q_age_max := Some v;
     q_product_categories := q_product_categories p; q_tags := q_tags p;
     q_payment_methods := q_payment_methods p; q_date_from := q_date_from p;
     q_date_to := q_date_to p; q_sort_by := q_sort_by p;
     q_sort_order := q_sort_order p; q_page := q_page p;
     q_page_size := q_page_size p |}.

Definition set_product_categories v (p : SalesQueryParams) : SalesQueryParams :=
  {| q_search := q_search p; q_customer_regions := q_customer_regions p;
     q_genders := q_genders p; q_age_min := q_age_min p; q_age_max := q_age_max p;
     q_product_categories := Some v; q_tags := q_tags p;
     q_payment_methods := q_payment_methods p; q_date_from := q_date_from p;
     q_date_to := q_date_to p; q_sort_by := q_sort_by p;
     q_sort_order := q_sort_order p; q_page := q_page p;
     q_page_size := q_page_size p |}.

Definition set_tags v (p : SalesQueryParams) : SalesQueryParams :=
  {| q_search := q_search p; q_customer_regions := q_customer_regions p;
     q_genders := q_genders p; q_age_min := q_age_min p; q_age_max := q_age_max p;
     q_product_categories := q_product_categories p; q_tags := Some v;
     q_payment_methods := q_payment_methods p; q_date_from := q_date_from p;
     q_date_to := q_date_to p; q_sort_by := q_sort_by p;
     q_sort_order := q_sort_order p; q_page := q_page p;
     q_page_size := q_page_size p |}.

Definition set_payment_methods v (p : SalesQueryParams) : SalesQueryParams :=
  {| q_search := q_search p; q_customer_regions := q_customer_regions p;
     q_genders := q_genders p; q_age_min := q_age_min p; q_age_max := q_age_max p;
     q_product_categories := q_product_categories p; q_tags := q_tags p;
     q_payment_methods := Some v; q_date_from := q_date_from p;
     q_date_to := q_date_to p; q_sort_by := q_sort_by p;
     q_sort_order := q_sort_order p; q_page := q_page p;
     q_page_size := q_page_size p |}.

Definition set_date_from v (p : SalesQueryParams) : SalesQueryParams :=
  {| q_search := q_search p; q_customer_regions := q_customer_regions p;
     q_genders := q_genders p; q_age_min := q_age_min p; q_age_max := q_age_max p;
     q_product_categories := q_product_categories p; q_tags := q_tags p;
     q_payment_methods := q_payment_methods p; q_date_from := Some v;
     q_date_to := q_date_to p; q_sort_by := q_sort_by p;
     q_sort_order := q_sort_order p; q_page := q_page p;
     q_page_size := q_page_size p |}.

(** One key of [Object.assign(target, source)]: a key present in the source
    overwrites the target's, an absent one leaves it. *)
Definition assign_key {A} (target source : option A) : option A :=
  match source with Some v => Some v | None => target end.

(** [Object.assign(target, source)] on two parameter objects. *)
Definition assign (target source : SalesQueryParams) : SalesQueryParams :=
  {| q_search := assign_key (q_search target) (q_search source);
     q_customer_regions :=
       assign_key (q_customer_regions target) (q_customer_regions source);
     q_genders := assign_key (q_genders target) (q_genders source);
     q_age_min := assign_key (q_age_min target) (q_age_min source);
     q_age_max := assign_key (q_age_max target) (q_age_max source);
     q_product_categories :=
       assign_key (q_product_categories target) (q_product_categories source);
     q_tags := assign_key (q_tags target) (q_tags source);
     q_payment_methods :=
       assign_key (q_payment_methods target) (q_payment_methods source);
     q_date_from := assign_key (q_date_from target) (q_date_from source);
     q_date_to := assign_key (q_date_to target) (q_date_to source);
     q_sort_by := assign_key (q_sort_by target) (q_sort_by source);
     q_sort_order := assign_key (q_sort_order target) (q_sort_order source);
     q_page := assign_key (q_page target) (q_page source);
     q_page_size := assign_key (q_page_size target) (q_page_size source) |}.

End Params.

(* ===================================================================== *)
(** ** The page component (frontend/src/app/page.tsx) *)
(* ===================================================================== *)

(** [FilterState] (frontend/src/components/Filters.tsx) *)
Record FilterState := {
  fs_customer_regions : list string;
  fs_genders : list string;
  fs_age_range : string;
  fs_product_categories : list string;
  fs_tags : list string;
  fs_payment_methods : list string;
  fs_date_range : string
}.

(** The [useState] cells of [Home] that the handlers below read or write. *)
Record HomeState := {
  st_transactions : list SalesTransaction;
  summary : SummaryStats;
  loading : bool;
  debouncedSearchQuery : string;
  filters : FilterState;
  sortBy : string;
  sortOrder : string;
  sortDropdownOpen : bool;
  currentPage : Z;
  totalPages : Z;
  st_total : Z
}.

Definition pageSize : Z := 10.

(** The branch of [buildFilterParams] taken when [max] is truthy
    (lines 72-77). *)
Definition ageRangeBranch (min max : string) (filterParams : SalesQueryParams)
  : SalesQueryParams :=
  match JS.parseInt min, JS.parseInt max with
  | Some ageMin, Some ageMax =>
      if (0 <=? ageMin) && (ageMax <=? 150) && (ageMin <=? ageMax)
      then Params.set_age_max ageMax (Params.set_age_min ageMin filterParams)
      else filterParams
  | _, _ => filterParams
  end.

(** The [else if (min.endsWith('+'))] branch (lines 78-83). *)
Definition agePlusBranch (min : string) (filterParams : SalesQueryParams)
  : SalesQueryParams :=
  if JS.endsWith min "+" then
    match JS.parseInt (JS.replace "+" "" min) with
    | Some ageMin =>
        if (0 <=? ageMin) && (ageMin <=? 150)
        then Params.set_age_min ageMin filterParams
        else filterParams
    | None => filterParams
    end
  else filterParams.

(** The age part of [buildFilterParams] (lines 69-84), as a function from
    the object built so far to the object after it.  [split] never returns
    an empty array, so [min] is always a string; [max] is [undefined] when
    the string has no '-'. *)
Definition buildAgeParams (age_range : string) (filterParams : SalesQueryParams)
  : SalesQueryParams :=
  if JS.truthy age_range then
    match JS.destructure2 (JS.split "-" age_range) with
    | (Some min, Some max) =>
        if JS.truthy max then ageRangeBranch min max filterParams
        else agePlusBranch min filterParams
    | (Some min, None) => agePlusBranch min filterParams
    | (None, _) => filterParams
    end
  else filterParams.

(** [buildFilterParams] (lines 61-99): the conditional assignments in source
    order, starting from the empty object. *)
Definition buildFilterParams (f : FilterState) : SalesQueryParams :=
  let fp := empty_params in
  let fp := if (0 <? Z.of_nat (List.length (fs_customer_regions f)))
            then Params.set_customer_regions (map JS.toLowerCase (fs_customer_regions f)) fp
            else fp in
  let fp := if (0 <? Z.of_nat (List.length (fs_genders f)))
            then Params.set_genders (map JS.toLowerCase (fs_genders f)) fp
            else fp in
  let fp := buildAgeParams (fs_age_range f) fp in
  let fp := if (0 <? Z.of_nat (List.length (fs_product_categories f)))
            then Params.set_product_categories (map JS.toLowerCase (fs_product_categories f)) fp
            else fp in
  let fp := if (0 <? Z.of_nat (List.length (fs_tags f)))
            then Params.set_tags (map JS.toLowerCase (fs_tags f)) fp
            else fp in
  let fp := if (0 <? Z.of_nat (List.length (fs_payment_methods f)))
            then Params.set_payment_methods (map JS.toLowerCase (fs_payment_methods f)) fp
            else fp in
  let fp := if JS.truthy (fs_date_range f)
            then Params.set_date_from (fs_date_range f) fp
            else fp in
  fp.

(** The object [params] handed to [salesAPI.getTransactions] (lines 52-57 and
    101-108). *)
Definition params (st : HomeState) : SalesQueryParams :=
  let params :=
    {| q_search := None; q_customer_regions := None; q_genders := None;
       q_age_min := None; q_age_max := None; q_product_categories := None;
       q_tags := None; q_payment_methods := None; q_date_from := None;
       q_date_to := None;
       q_sort_by := Some (sortBy st); q_sort_order := Some (sortOrder st);
       q_page := Some (currentPage st); q_page_size := Some pageSize |} in
  let filterParams := buildFilterParams (filters st) in
  let params :=
    if JS.truthy (debouncedSearchQuery st) && JS.truthy (JS.trim (debouncedSearchQuery st))
    then Params.set_search (JS.trim (debouncedSearchQuery st)) params
    else params in
  Params.assign params filterParams.

(** The object [summaryParams] handed to [salesAPI.getSummary] (line 110):
    a copy of [filterParams]. *)
Definition summaryParams (st : HomeState) : SalesQueryParams :=
  buildFilterParams (filters st).

Module Home.

Definition setTransactions v (s : HomeState) : HomeState :=
  {| st_transactions := v; summary := summary s; loading := loading s;
     debouncedSearchQuery := debouncedSearchQuery s; filters := filters s;
     sortBy := sortBy s; sortOrder := sortOrder s;
     sortDropdownOpen := sortDropdownOpen s; currentPage := currentPage s;
     totalPages := totalPages s; st_total := st_total s |}.

Definition setSummary v (s : HomeState) : HomeState :=
  {| st_transactions := st_transactions s; summary := v; loading := loading s;
     debouncedSearchQuery := debouncedSearchQuery s; filters := filters s;
     sortBy := sortBy s; sortOrder := sortOrder s;
     sortDropdownOpen := sortDropdownOpen s; currentPage := currentPage s;
     totalPages := totalPages s; st_total := st_total s |}.

Definition setLoading v (s : HomeState) : HomeState :=
  {| st_transactions := st_transactions s; summary := summary s; loading := v;
     debouncedSearchQuery := debouncedSearchQuery s; filters := filters s;
     sortBy := sortBy s; sortOrder := sortOrder s;
     sortDropdownOpen := sortDropdownOpen s; currentPage := currentPage s;
     totalPages := totalPages s; st_total := st_total s |}.

Definition setDebouncedSearchQuery v (s : HomeState) : HomeState :=
  {| st_transactions := st_transactions s; summary := summary s;
     loading := loading s;
     debouncedSearchQuery := v; filters := filters s;
     sortBy := sortBy s; sortOrder := sortOrder s;
     sortDropdownOpen := sortDropdownOpen s; currentPage := currentPage s;
     totalPages := totalPages s; st_total := st_total s |}.

Definition setFilters v (s : HomeState) : HomeState :=
  {| st_transactions := st_transactions s; summary := summary s;
     loading := loading s;
     debouncedSearchQuery := debouncedSearchQuery s; filters := v;
     sortBy := sortBy s; sortOrder := sortOrder s;
     sortDropdownOpen := sortDropdownOpen s; currentPage := currentPage s;
     totalPages := totalPages s; st_total := st_total s |}.

Definition setSortBy v (s : HomeState) : HomeState :=
  {| st_transactions := st_transactions s; summary := summary s;
     loading := loading s;
     debouncedSearchQuery := debouncedSearchQuery s; filters := filters s;
     sortBy := v; sortOrder := sortOrder s;
     sortDropdownOpen := sortDropdownOpen s; currentPage := currentPage s;
     totalPages := totalPages s; st_total := st_total s |}.

Definition setSortOrder v (s : HomeState) : HomeState :=
  {| st_transactions := st_transactions s; summary := summary s;
     loading := loading s;
     debouncedSearchQuery := debouncedSearchQuery s; filters := filters s;
     sortBy := sortBy s; sortOrder := v;
     sortDropdownOpen := sortDropdownOpen s; currentPage := currentPage s;
     totalPages := totalPages s; st_total := st_total s |}.

Definition setSortDropdownOpen v (s : HomeState) : HomeState :=
  {| st_transactions := st_transactions s; summary := summary s;
     loading := loading s;
     debouncedSearchQuery := debouncedSearchQuery s; filters := filters s;
     sortBy := sortBy s; sortOrder := sortOrder s;
     sortDropdownOpen := v; currentPage := currentPage s;
     totalPages := totalPages s; st_total := st_total s |}.

Definition setCurrentPage v (s : HomeState) : HomeState :=
  {| st_transactions := st_transactions s; summary := summary s;
     loading := loading s;
     debouncedSearchQuery := debouncedSearchQuery s; filters := filters s;
     sortBy := sortBy s; sortOrder := sortOrder s;
     sortDropdownOpen := sortDropdownOpen s; currentPage := v;
     totalPages := totalPages s; st_total := st_total s |}.

Definition setTotalPages v (s : HomeState) : HomeState :=
  {| st_transactions := st_transactions s; summary := summary s;
     loading := loading s;
     debouncedSearchQuery := debouncedSearchQuery s; filters := filters s;
     sortBy := sortBy s; sortOrder := sortOrder s;
     sortDropdownOpen := sortDropdownOpen s; currentPage := currentPage s;
     totalPages := v; st_total := st_total s |}.

Definition setTotal v (s : HomeState) : HomeState :=
  {| st_transactions := st_transactions s; summary := summary s;
     loading := loading s;
     debouncedSearchQuery := debouncedSearchQuery s; filters := filters s;
     sortBy := sortBy s; sortOrder := sortOrder s;
     sortDropdownOpen := sortDropdownOpen s; currentPage := currentPage s;
     totalPages := totalPages s; st_total := v |}.

End Home.

(** The error caught by [fetchData]: an axios error carries [response] when
    the server answered, with its HTTP [status] and body [data]; [detail] is
    the message FastAPI puts in the body.  [None] is [undefined]. *)
Record ErrorData := { detail : option string }.
Record ErrorResponse := { status : Z; data : option ErrorData }.
Record FetchError := { response : option ErrorResponse }.

(** What [await Promise.all([getTransactions, getSummary])] yields: both
    bodies, or the error the combined promise rejects with. *)
Inductive FetchOutcome :=
| Resolved (transactionsData : SalesResponse) (summaryData : SummaryStats)
| Rejected (error : FetchError).

(** [error.response?.status === 400] *)
Definition status_is_400 (error : FetchError) : bool :=
  match response error with
  | Some r => status r =? 400
  | None => false
  end.

(** [error.response?.data?.detail || 'Invalid filter parameters'] *)
Definition errorMessage (error : FetchError) : string :=
  match response error with
  | Some {| data := Some {| detail := Some d |} |} =>
      if JS.truthy d then d else "Invalid filter parameters"
  | _ => "Invalid filter parameters"
  end.

Definition zeroSummary : SummaryStats :=
  {| total_units_sold := 0; sum_total_amount := 0%Q; total_discount := 0%Q;
     total_sales_records := 0 |}.

(** The part of [fetchData] that runs once the awaited requests settle
    (lines 117-156).  [closure] is the state the callback was created in (it
    reads [currentPage] from there), [st] the state the setters act on; the
    second component lists the messages shown with [alert].  Console output
    is left out. *)
Definition fetchData_settle (closure : HomeState) (o : FetchOutcome) (st : HomeState)
  : HomeState * list string :=
  let '(st, alerts) :=
    match o with
    | Resolved transactionsData summaryData =>
        let st := Home.setTransactions (transactions transactionsData) st in
        let st := Home.setTotal (total transactionsData) st in
        let st := Home.setTotalPages (total_pages transactionsData) st in
        let st := Home.setSummary summaryData st in
        let st :=
          if (total_pages transactionsData <? currentPage closure)
             && (0 <? total_pages transactionsData)
          then Home.setCurrentPage 1 st else st in
        (st, [])
    | Rejected error =>
        if status_is_400 error then (st, [errorMessage error])
        else
          let st := Home.setTransactions [] st in
          let st := Home.setTotal 0 st in
          let st := Home.setTotalPages 0 st in
          let st := Home.setSummary zeroSummary st in
          (st, [])
    end in
  (Home.setLoading false st, alerts).

(** [handleSortChange] (lines 202-208) *)
Definition handleSortChange (newSortBy newSortOrder : string) (st : HomeState)
  : HomeState :=
  let st := Home.setSortBy newSortBy st in
  let st := Home.setSortOrder newSortOrder st in
  let st := Home.setCurrentPage 1 st in
  Home.setSortDropdownOpen false st.

(** [handleFilterChange] (lines 197-200) *)
Definition handleFilterChange (newFilters : FilterState) (st : HomeState) : HomeState :=
  Home.setCurrentPage 1 (Home.setFilters newFilters st).

(** [sortOptions] of [SortByDropdown] (lines 211-218): value and label. *)
Definition sortOptions : list (string * string) :=
  [ ("date_desc", "Date (Newest First)");
    ("date_asc", "Date (Oldest First)");
    ("quantity_desc", "Quantity (High to Low)");
    ("quantity_asc", "Quantity (Low to High)");
    ("customer_name_asc", "Customer Name (A-Z)");
    ("customer_name_desc", "Customer Name (Z-A)") ].

(** [const [field, order] = option.value.split('_')] (line 249): the two
    arguments the option's button passes to [onSortChange]. *)
Definition sortOptionArgs (value : string) : option string * option string :=
  JS.destructure2 (JS.split "_" value).

(** [currentValue] of the dropdown (line 220): how a (field, order) pair is
    written as an option value. *)
Definition sortOptionValue (field order : string) : string :=
  field ++ "_" ++ order.

(** Clicking an option's button (line 253) with [onSortChange] bound to
    [handleSortChange].  Every value of [sortOptions] has at least two
    pieces, so both arguments are strings. *)
Definition sortOptionClick (value : string) (st : HomeState) : HomeState :=
  match sortOptionArgs value with
  | (Some field, Some order) => handleSortChange field order st
  | _ => st
  end.

(* ===================================================================== *)
(** ** The query engine

    Modelled from the spec: the back end that answers
    [/api/sales/transactions] and [/api/sales/summary] is not among the
    sources.  The components below follow the specification, section 4, and
    the implementation summaries of the README; rows are well-typed
    [SalesTransaction]s and dates are ISO [YYYY-MM-DD] strings, whose
    lexicographic order is the chronological one. *)
(* ===================================================================== *)

Module Engine.

(** Modelled from the spec: section 7, the one error kind of the engine. *)
Inductive Error := ValidationError (message : string).

(** Modelled from the spec: a component answers with a value or with the
    error. *)
Definition Result (A : Type) : Type := (Error + A)%type.

(** Modelled from the spec: section 4.3, the direction is [asc] or
    [desc]. *)
Inductive Direction := Asc | Desc.

(** Modelled from the spec: section 3, the filter set of a Query.  An empty
    list and [None] are absent constraints. *)
Record Filters := {
  customer_regions : list string;
  genders : list string;
  product_categories : list string;
  tag_set : list string;
  payment_methods : list string;
  age_min : option Z;
  age_max : option Z;
  date_from : option string
}.

(** Modelled from the spec: section 3, the Query value object. *)
Record Query := {
  search : option string;
  query_filters : Filters;
  sort_field : string;
  sort_direction : Direction;
  page_number : Z;
  query_page_size : Z
}.

(** *** 4.1 Predicate Builder *)

(** Modelled from the spec: the substring test, [needle] occurs in [hay]. *)
Fixpoint contains (needle hay : string) : bool :=
  String.prefix needle hay ||
  match hay with
  | EmptyString => false
  | String _ rest => contains needle rest
  end.

(** Modelled from the spec: the digit-normalized form of a phone number,
    its decimal digits in order. *)
Fixpoint digits_only (s : string) : string :=
  match s with
  | EmptyString => EmptyString
  | String c rest =>
      match JS.digit c with
      | Some _ => String c (digits_only rest)
      | None => digits_only rest
      end
  end.

(** Modelled from the spec: the decimal string form of a numeric field. *)
Definition decimal (z : Z) : string := NilZero.string_of_int (Z.to_int z).

(** Modelled from the spec: the searchable fields of 4.1, the phone number in
    its raw and its digit-normalized form, the transaction id in decimal. *)
Definition searchable_fields (r : SalesTransaction) : list string :=
  [ customer_name r; phone_number r; digits_only (phone_number r);
    decimal (transaction_id r); customer_id r; product_id r; product_name r;
    employee_name r; store_id r; store_location r; brand r; customer_type r;
    order_status r; delivery_type r ].

(** Modelled from the spec: the OR of the per-field case-insensitive
    substring tests. *)
Definition matches_search (term : string) (r : SalesTransaction) : bool :=
  existsb (fun field => contains (JS.toLowerCase term) (JS.toLowerCase field))
          (searchable_fields r).

(** Modelled from the spec: the search constrains only when it is present
    and non-empty after trimming. *)
Definition search_predicate (search : option string) (r : SalesTransaction) : bool :=
  match search with
  | None => true
  | Some s =>
      let term := JS.trim s in
      if JS.truthy term then matches_search term r else true
  end.

(** Modelled from the spec: set membership on lowercased values; an empty
    requested set is no constraint. *)
Definition in_requested (requested : list string) (value : string) : bool :=
  match requested with
  | [] => true
  | _ => existsb (String.eqb (JS.toLowerCase value)) (map JS.toLowerCase requested)
  end.

(** Modelled from the spec: the labels of a row, its comma-separated [tags]
    cell cut at the commas, each label without surrounding white space. *)
Definition row_tags (r : SalesTransaction) : list string :=
  map JS.trim (JS.split "," (tags r)).

(** Modelled from the spec: a row matches when any of its tags is
    requested. *)
Definition tags_requested (requested : list string) (r : SalesTransaction) : bool :=
  match requested with
  | [] => true
  | _ => existsb (in_requested requested) (row_tags r)
  end.

(** Modelled from the spec: the optional bounds of the numeric range and of
    the date; an absent bound holds of every value. *)
Definition at_least (bound : option Z) (v : Z) : bool :=
  match bound with Some b => b <=? v | None => true end.

Definition at_most (bound : option Z) (v : Z) : bool :=
  match bound with Some b => v <=? b | None => true end.

Definition on_or_after (bound : option string) (d : string) : bool :=
  match bound with Some b => String.leb b d | None => true end.

(** Modelled from the spec: the AND of the filter sub-predicates. *)
Definition filter_predicate (f : Filters) (r : SalesTransaction) : bool :=
  in_requested (customer_regions f) (customer_region r)
  && in_requested (genders f) (gender r)
  && in_requested (product_categories f) (product_category r)
  && tags_requested (tag_set f) r
  && in_requested (payment_methods f) (payment_method r)
  && at_least (age_min f) (age r)
  && at_most (age_max f) (age r)
  && on_or_after (date_from f) (date r).

(** Modelled from the spec: the query is rejected when both age bounds are
    given and [age_min > age_max]; otherwise the predicate is the AND of the
    search predicate and the filter predicate. *)
Definition build_predicate (search : option string) (f : Filters)
  : Result (SalesTransaction -> bool) :=
  match age_min f, age_max f with
  | Some lo, Some hi =>
      if hi <? lo then inl (ValidationError "age_min cannot be greater than age_max")
      else inr (fun r => search_predicate search r && filter_predicate f r)
  | _, _ => inr (fun r => search_predicate search r && filter_predicate f r)
  end.

(** *** 4.2 Filter Evaluator *)

(** Modelled from the spec: the matching rows in their dataset order. *)
Definition evaluate (dataset : list SalesTransaction)
  (predicate : SalesTransaction -> bool) : list SalesTransaction :=
  List.filter predicate dataset.

(** *** 4.3 Sorter *)

(** Modelled from the spec: the three supported sort fields and the names
    requests use for them. *)
Inductive SortField := ByDate | ByQuantity | ByCustomerName.

Definition supported_field (name : string) : option SortField :=
  if String.eqb name "date" then Some ByDate
  else if String.eqb name "quantity" then Some ByQuantity
  else if String.eqb name "customer_name" then Some ByCustomerName
  else None.

Definition field_name (f : SortField) : string :=
  match f with
  | ByDate => "date"
  | ByQuantity => "quantity"
  | ByCustomerName => "customer_name"
  end.

(** Modelled from the spec: a sort key is a number or a string. *)
Inductive SortKey := NumKey (z : Z) | StrKey (s : string).

Definition key_eqb (a b : SortKey) : bool :=
  match a, b with
  | NumKey x, NumKey y => x =? y
  | StrKey x, StrKey y => String.eqb x y
  | _, _ => false
  end.

(** Modelled from the spec: date and quantity sort as their own values, the
    customer name by its lowercased form. *)
Definition sort_key (f : SortField) (r : SalesTransaction) : SortKey :=
  match f with
  | ByDate => StrKey (date r)
  | ByQuantity => NumKey (quantity r)
  | ByCustomerName => StrKey (JS.toLowerCase (customer_name r))
  end.

(** Modelled from the spec: numeric order on numbers, lexicographic order on
    strings (chronological on ISO dates).  A field yields keys of one kind
    only; numbers are put before strings to make the order total. *)
Definition key_leb (a b : SortKey) : bool :=
  match a, b with
  | NumKey x, NumKey y => x <=? y
  | StrKey x, StrKey y => String.leb x y
  | NumKey _, StrKey _ => true
  | StrKey _, NumKey _ => false
  end.

(** Modelled from the spec: descending is the same comparator with its
    arguments exchanged. *)
Definition directed_leb (d : Direction) (a b : SortKey) : bool :=
  match d with
  | Asc => key_leb a b
  | Desc => key_leb b a
  end.

(** Modelled from the spec: where a run is cut in two. *)
Definition half (n : nat) : nat := (n / 2)%nat.
Arguments half : simpl never.

Section MergeSort.

Context {A : Type} (le : A -> A -> bool).

(** Modelled from the spec: the merge of a stable merge sort; on a tie the
    element of the left run goes first. *)
Fixpoint merge (left : list A) : list A -> list A :=
  fix into (right : list A) : list A :=
    match left, right with
    | [], _ => right
    | _, [] => left
    | a :: left', b :: right' =>
        if le a b then a :: merge left' right else b :: into right'
    end.

(** Modelled from the spec: the README names Pandas' stable merge sort
    ([kind='mergesort']); the list is cut in two halves, each half is sorted
    and the two are merged. *)
Equations? merge_sort (l : list A) : list A by wf (List.length l) lt :=
  merge_sort [] := [];
  merge_sort [a] := [a];
  merge_sort (a :: b :: rest) :=
    let n := half (List.length (a :: b :: rest)) in
    merge (merge_sort (firstn n (a :: b :: rest)))
          (merge_sort (skipn n (a :: b :: rest))).
Proof.
  all: assert (Hn : (0 < half (S (S (List.length rest))) < S (S (List.length rest)))%nat)
    by (unfold half; split; [apply Nat.div_str_pos | apply Nat.div_lt]; lia).
  - rewrite length_firstn. cbn [List.length]. lia.
  - rewrite length_skipn. cbn [List.length]. lia.
Qed.

End MergeSort.

(** Modelled from the spec: [sort(filtered_sequence, field, direction)];
    an unsupported field fails validation. *)
Definition sort (rows : list SalesTransaction) (field : string) (d : Direction)
  : Result (list SalesTransaction) :=
  match supported_field field with
  | Some f =>
      inr (merge_sort (fun x y => directed_leb d (sort_key f x) (sort_key f y)) rows)
  | None => inl (ValidationError "unknown sort field")
  end.

(** *** 4.4 Paginator *)

(** Modelled from the spec: [ceil(n / size)] on integers. *)
Definition ceil_div (n size : Z) : Z := (n + size - 1) / size.

(** Modelled from the spec: the README's [.iloc[start:stop]], the rows at
    positions [start] .. [stop - 1], clipped to the sequence. *)
Definition slice {A} (l : list A) (start stop : Z) : list A :=
  firstn (Z.to_nat (stop - start)) (skipn (Z.to_nat start) l).

(** Modelled from the spec: [paginate(ordered_sequence, page, page_size)]
    gives the page and the number of pages; [page] and [page_size] below 1
    fail validation. *)
Definition paginate (rows : list SalesTransaction) (page page_size : Z)
  : Result (list SalesTransaction * Z) :=
  if page <? 1 then inl (ValidationError "page must be at least 1")
  else if page_size <? 1 then inl (ValidationError "page_size must be at least 1")
  else
    let skip := (page - 1) * page_size in
    inr (slice rows skip (skip + page_size),
         ceil_div (Z.of_nat (List.length rows)) page_size).

(** *** 4.5 Aggregator *)

(** Modelled from the spec: exact sums. *)
Definition sum_Z (l : list Z) : Z := fold_right Z.add 0 l.
Definition sum_Q (l : list Q) : Q := fold_right Qplus 0%Q l.

(** Modelled from the spec: the sums over all filtered rows. *)
Definition aggregate (rows : list SalesTransaction) : SummaryStats :=
  {| total_units_sold := sum_Z (map quantity rows);
     sum_total_amount := sum_Q (map total_amount rows);
     total_discount :=
       sum_Q (map (fun r => (total_amount r * discount_percentage r / 100)%Q) rows);
     total_sales_records := Z.of_nat (List.length rows) |}.

(** *** The two queries *)

(** Modelled from the spec: Predicate Builder, then Filter Evaluator; the
    filtered set both branches of the control flow consume. *)
Definition matching (dataset : list SalesTransaction)
  (search : option string) (f : Filters) : Result (list SalesTransaction) :=
  match build_predicate search f with
  | inl e => inl e
  | inr predicate => inr (evaluate dataset predicate)
  end.

(** Modelled from the spec: Query -> filtered set -> Sorter -> Paginator. *)
Definition run_query (dataset : list SalesTransaction) (q : Query)
  : Result SalesResponse :=
  match matching dataset (search q) (query_filters q) with
  | inl e => inl e
  | inr filtered =>
      match sort filtered (sort_field q) (sort_direction q) with
      | inl e => inl e
      | inr ordered =>
          match paginate ordered (page_number q) (query_page_size q) with
          | inl e => inl e
          | inr (rows, pages) =>
              inr {| transactions := rows;
                     total := Z.of_nat (List.length filtered);
                     page := page_number q;
                     page_size := query_page_size q;
                     total_pages := pages |}
          end
      end
  end.

(** Modelled from the spec: Query -> filtered set -> Aggregator. *)
Definition run_summary (dataset : list SalesTransaction)
  (search : option string) (f : Filters) : Result SummaryStats :=
  match matching dataset search f with
  | inl e => inl e
  | inr filtered => inr (aggregate filtered)
  end.

(** Modelled from the spec: the number of rows a search and a filter set
    match, the [total_matched] of the paginated query. *)
Definition total_matched (dataset : list SalesTransaction)
  (search : option string) (f : Filters) : Result Z :=
  match matching dataset search f with
  | inl e => inl e
  | inr filtered => inr (Z.of_nat (List.length filtered))
  end.

(** Reading a result through [f]; an error stays the error. *)
Definition on_result {A B} (f : A -> B) (r : Result A) : Result B :=
  match r with
  | inl e => inl e
  | inr v => inr (f v)
  end.

End Engine.

(** Modelled from the spec: how the request-handling layer reads the filter
    keys of a request; an absent list is the empty set. *)
Definition request_filters (p : SalesQueryParams) : Engine.Filters :=
  let keys (o : option (list string)) := match o with Some l => l | None => [] end in
  {| Engine.customer_regions := keys (q_customer_regions p);
     Engine.genders := keys (q_genders p);
     Engine.product_categories := keys (q_product_categories p);
     Engine.tag_set := keys (q_tags p);
     Engine.payment_methods := keys (q_payment_methods p);
     Engine.age_min := q_age_min p;
     Engine.age_max := q_age_max p;
     Engine.date_from := q_date_from p |}.

(** Modelled from the spec: the [total_matched] of the paginated query a
    request describes, the number of rows its search and filters match (the
    sort and page keys play no part in it). *)
Definition transactions_total (dataset : list SalesTransaction) (p : SalesQueryParams)
  : Engine.Result Z :=
  Engine.total_matched dataset (q_search p) (request_filters p).

(** Modelled from the spec: the SummaryResult of the query a request to
    [/api/sales/summary] describes. *)
Definition summary_of (dataset : list SalesTransaction) (p : SalesQueryParams)
  : Engine.Result SummaryStats :=
  Engine.run_summary dataset (q_search p) (request_filters p).

(** Modelled from the spec: the rows the answer to a request is computed
    over. *)
Definition rows_matching (dataset : list SalesTransaction) (p : SalesQueryParams)
  : Engine.Result (list SalesTransaction) :=
  Engine.matching dataset (q_search p) (request_filters p).

(** The values of the five set-membership keys a request carries. *)
Definition set_membership_values (p : SalesQueryParams) : list string :=
  let keys (o : option (list string)) := match o with Some l => l | None => [] end in
  keys (q_customer_regions p) ++ keys (q_genders p) ++ keys (q_product_categories p)
  ++ keys (q_tags p) ++ keys (q_payment_methods p).

(** What a multi-select list contributes to [filterParams]: its lowercased
    copy when it is non-empty, no key otherwise. *)
Definition lowered (l : list string) : option (list string) :=
  if 0 <? Z.of_nat (List.length l) then Some (map JS.toLowerCase l) else None.

(** The shapes of an age-range string: "a-b" has a non-empty piece [b]
    after its first '-'; "N+" has none and its first piece ends with '+',
    [n] being that piece without the '+'; anything else is [OtherForm]. *)
Inductive AgeForm :=
| Between (a b : string)
| From (n : string)
| OtherForm.

Definition age_form (s : string) : AgeForm :=
  match JS.split "-" s with
  | a :: b :: _ =>
      if JS.truthy b then Between a b
      else if JS.endsWith a "+" then From (JS.replace "+" "" a) else OtherForm
  | [a] => if JS.endsWith a "+" then From (JS.replace "+" "" a) else OtherForm
  | [] => OtherForm
  end.

Definition age_keys (p : SalesQueryParams) : option Z * option Z :=
  (q_age_min p, q_age_max p).

(** The filter state before any selection and after [handleRefresh]. *)
Definition noFilters : FilterState :=
  {| fs_customer_regions := []; fs_genders := []; fs_age_range := "";
     fs_product_categories := []; fs_tags := []; fs_payment_methods := [];
     fs_date_range := "" |}.

(** The state [Home] starts in (the [useState] defaults, lines 12-45). *)
Definition initialState : HomeState :=
  {| st_transactions := []; summary := zeroSummary; loading := true;
     debouncedSearchQuery := ""; filters := noFilters;
     sortBy := "date"; sortOrder := "desc"; sortDropdownOpen := false;
     currentPage := 1; totalPages := 1; st_total := 0 |}.

(** A row for the worked examples: id, day, customer, age and quantity
    vary, the other cells are fixed. *)
Definition sale (id : Z) (day name : string) (years qty : Z) : SalesTransaction :=
  {| transaction_id := id; date := day; customer_id := "CUST-77";
     customer_name := name; phone_number := "+91 98765 43210";
     gender := "Female"; age := years; customer_region := "North";
     customer_type := "Returning"; product_id := "PROD-5";
     product_name := "Kettle"; brand := "Prestige";
     product_category := "Home"; tags := "kitchen, steel"; quantity := qty;
     price_per_unit := 100%Q; discount_percentage := 10%Q;
     total_amount := (100 * inject_Z qty)%Q; final_amount := (90 * inject_Z qty)%Q;
     payment_method := "UPI"; order_status := "Delivered";
     delivery_type := "Standard"; store_id := "ST-3";
     store_location := "Pune"; salesperson_id := "SP-9";
     employee_name := "Ravi" |}.

(** Two rows, and the state after "alice" has been typed and debounced. *)
Definition twoSales : list SalesTransaction :=
  [ sale 1 "2023-01-05" "Alice" 30 2; sale 2 "2023-01-06" "Bob" 41 1 ].

Definition searchingAlice : HomeState :=
  Home.setCurrentPage 1 (Home.setDebouncedSearchQuery "alice" initialState).

(** The state after a white-space-only search has been debounced. *)
Definition blankSearch : HomeState :=
  Home.setCurrentPage 1 (Home.setDebouncedSearchQuery "  " initialState).

(** A state that shows [twoSales]. *)
Definition showingTwo : HomeState :=
  Home.setLoading false
    (Home.setSummary (Engine.aggregate twoSales)
       (Home.setTotalPages 1 (Home.setTotal 2 (Home.setTransactions twoSales initialState)))).

(** A validation failure as FastAPI reports it, and a failure without any
    response. *)
Definition rejected400 : FetchError :=
  {| response :=
       Some {| status := 400;
               data := Some {| detail := Some "age_min cannot be greater than age_max" |} |} |}.

Definition networkError : FetchError := {| response := None |}.

(** The names of the specification's sorting scenario, in dataset order. *)
Definition threeNames : list SalesTransaction :=
  [ sale 1 "2023-01-05" "bob" 30 2; sale 2 "2023-01-06" "Alice" 41 1;
    sale 3 "2023-01-07" "alice" 25 4 ].

(** Five matching rows, for the pagination scenario. *)
Definition fiveSales : list SalesTransaction :=
  [ sale 1 "2023-01-05" "Asha" 30 2; sale 2 "2023-01-06" "Bina" 41 1;
    sale 3 "2023-01-07" "Chitra" 25 4; sale 4 "2023-01-08" "Devi" 52 3;
    sale 5 "2023-01-09" "Esha" 37 5 ].

(** [ageRangeOptions] (frontend/src/components/Filters.tsx, lines 193-200). *)
Definition ageRangeOptions : list string :=
  [ "18-25"; "26-35"; "36-45"; "46-55"; "56-65"; "65+" ].

(** The filter state after [handleAgeRange(value)] on no other filter. *)
Definition withAgeRange (value : string) : FilterState :=
  {| fs_customer_regions := []; fs_genders := []; fs_age_range := value;
     fs_product_categories := []; fs_tags := []; fs_payment_methods := [];
     fs_date_range := "" |}.

(* ===================================================================== *)
(** ** The filter bar (frontend/src/components/Filters.tsx) *)
(* ===================================================================== *)

(** The five keys [MultiSelectDropdown] is instantiated with (lines
    336-361); they are the keys [handleMultiSelect] is called on. *)
Inductive MultiKey :=
| CustomerRegions | Genders | ProductCategories | Tags | PaymentMethods.

(** Equality of two multi-select keys. *)
Definition MultiKey_eqb (a b : MultiKey) : bool :=
  match a, b with
  | CustomerRegions, CustomerRegions | Genders, Genders
  | ProductCategories, ProductCategories | Tags, Tags
  | PaymentMethods, PaymentMethods => true
  | _, _ => false
  end.

(** [filters[key]] for a multi-select key. *)
Definition selected (key : MultiKey) (f : FilterState) : list string :=
  match key with
  | CustomerRegions => fs_customer_regions f
  | Genders => fs_genders f
  | ProductCategories => fs_product_categories f
  | Tags => fs_tags f
  | PaymentMethods => fs_payment_methods f
  end.

(** [{ ...prev, [key]: newValue }] for a multi-select key. *)
Definition withSelected (key : MultiKey) (newValue : list string) (prev : FilterState)
  : FilterState :=
  {| fs_customer_regions :=
       match key with CustomerRegions => newValue | _ => fs_customer_regions prev end;
     fs_genders := match key with Genders => newValue | _ => fs_genders prev end;
     fs_age_range := fs_age_range prev;
     fs_product_categories :=
       match key with ProductCategories => newValue | _ => fs_product_categories prev end;
     fs_tags := match key with Tags => newValue | _ => fs_tags prev end;
     fs_payment_methods :=
       match key with PaymentMethods => newValue | _ => fs_payment_methods prev end;
     fs_date_range := fs_date_range prev |}.

(** [handleMultiSelect] (lines 39-47): a selected value is removed, a value
    that is not selected is added at the end. *)
Definition handleMultiSelect (key : MultiKey) (value : string) (prev : FilterState)
  : FilterState :=
  let current := selected key prev in
  let newValue :=
    if JS.includes current value
    then List.filter (fun v => negb (String.eqb v value)) current
    else (current ++ [value])%list in
  withSelected key newValue prev.

(** [handleAgeRange] (lines 49-54) *)
Definition handleAgeRange (value : string) (prev : FilterState) : FilterState :=
  {| fs_customer_regions := fs_customer_regions prev; fs_genders := fs_genders prev;
     fs_age_range := value;
     fs_product_categories := fs_product_categories prev; fs_tags := fs_tags prev;
     fs_payment_methods := fs_payment_methods prev;
     fs_date_range := fs_date_range prev |}.

(** [handleDateRange] (lines 56-61) *)
Definition handleDateRange (value : string) (prev : FilterState) : FilterState :=
  {| fs_customer_regions := fs_customer_regions prev; fs_genders := fs_genders prev;
     fs_age_range := fs_age_range prev;
     fs_product_categories := fs_product_categories prev; fs_tags := fs_tags prev;
     fs_payment_methods := fs_payment_methods prev;
     fs_date_range := value |}.

(** [handleRefresh] (lines 100-110) *)
Definition handleRefresh (prev : FilterState) : FilterState := noFilters.

(** [keyof FilterState] *)
Inductive FilterKey :=
| MultiSelect (key : MultiKey)
| AgeRange
| DateRange.

(** [clearFilter] (lines 116-122): an array-valued key is set to the empty
    array, a string-valued key to the empty string. *)
Definition clearFilter (key : FilterKey) (prev : FilterState) : FilterState :=
  match key with
  | MultiSelect k => withSelected k [] prev
  | AgeRange => handleAgeRange "" prev
  | DateRange => handleDateRange "" prev
  end.

(** The key of the request a multi-select filter is sent under. *)
Definition request_key (key : MultiKey) (p : SalesQueryParams) : option (list string) :=
  match key with
  | CustomerRegions => q_customer_regions p
  | Genders => q_genders p
  | ProductCategories => q_product_categories p
  | Tags => q_tags p
  | PaymentMethods => q_payment_methods p
  end.

(** [handlePageChange] (page.tsx, lines 267-270); the scrolling is left
    out. *)
Definition handlePageChange (page : Z) (st : HomeState) : HomeState :=
  Home.setCurrentPage page st.

Module ParamsMore.

Definition set_sort_by v (p : SalesQueryParams) : SalesQueryParams :=
  {| q_search := q_search p; q_customer_regions := q_customer_regions p;
     q_genders := q_genders p; q_age_min := q_age_min p; q_age_max := q_age_max p;
     q_product_categories := q_product_categories p; q_tags := q_tags p;
     q_payment_methods := q_payment_methods p; q_date_from := q_date_from p;
     q_date_to := q_date_to p; q_sort_by := Some v;
     q_sort_order := q_sort_order p; q_page := q_page p;
     q_page_size := q_page_size p |}.

Definition set_sort_order v (p : SalesQueryParams) : SalesQueryParams :=
  {| q_search := q_search p; q_customer_regions := q_customer_regions p;
     q_genders := q_genders p; q_age_min := q_age_min p; q_age_max := q_age_max p;
     q_product_categories := q_product_categories p; q_tags := q_tags p;
     q_payment_methods := q_payment_methods p; q_date_from := q_date_from p;
     q_date_to := q_date_to p; q_sort_by := q_sort_by p;
     q_sort_order := Some v; q_page := q_page p;
     q_page_size := q_page_size p |}.

Definition set_page v (p : SalesQueryParams) : SalesQueryParams :=
  {| q_search := q_search p; q_customer_regions := q_customer_regions p;
     q_genders := q_genders p; q_age_min := q_age_min p; q_age_max := q_age_max p;
     q_product_categories := q_product_categories p; q_tags := q_tags p;
     q_payment_methods := q_payment_methods p; q_date_from := q_date_from p;
     q_date_to := q_date_to p; q_sort_by := q_sort_by p;
     q_sort_order := q_sort_order p; q_page := Some v;
     q_page_size := q_page_size p |}.

End ParamsMore.

(* ===================================================================== *)
(** ** The table (frontend/src/components/SalesTable.tsx) *)
(* ===================================================================== *)

(** [formatPhoneNumber] (lines 46-50) *)
Definition formatPhoneNumber (phone : string) : string :=
  if JS.startsWith phone "+91" then phone
  else if (String.length phone =? 10)%nat then "+91 " ++ phone
  else phone.


Section Table.

(** [formatCurrency] (lines 38-44) delegates to the platform's
    [Intl.NumberFormat]; it is taken as given. *)
Variable formatCurrency : Q -> string.


End Table.


(** Every selection of the filter bar is free of repeated values. *)
Definition duplicate_free (f : FilterState) : Prop :=
  forall key, NoDup (selected key f).

(** A filter state with two regions selected, and a state of the page on
    its third page. *)
Definition twoRegions : FilterState :=
  withSelected CustomerRegions ["North"; "South"] noFilters.



(* ===================================================================== *)
(** ** Facts about the string primitives *)
(* ===================================================================== *)

Lemma toLowerCaseChar_idem c :
  JS.toLowerCaseChar (JS.toLowerCaseChar c) = JS.toLowerCaseChar c.
Proof.
  destruct c as [b0 b1 b2 b3 b4 b5 b6 b7].
  destruct b0, b1, b2, b3, b4, b5, b6, b7; reflexivity.
Qed.

Lemma toLowerCase_idem s : JS.toLowerCase (JS.toLowerCase s) = JS.toLowerCase s.
Proof.
  induction s as [|c s IH]; simpl.
  - reflexivity.
  - now rewrite toLowerCaseChar_idem, IH.
Qed.

Lemma Forall_lowercased (l : list string) :
  Forall (fun v => JS.toLowerCase v = v) (map JS.toLowerCase l).
Proof.
  induction l as [|x l IH]; simpl; constructor; auto using toLowerCase_idem.
Qed.

Lemma truthy_false s : JS.truthy s = false <-> s = "".
Proof. destruct s; simpl; split; congruence. Qed.

Lemma truthy_true s : JS.truthy s = true <-> s <> "".
Proof. destruct s; simpl; split; congruence. Qed.

Lemma trim_empty : JS.trim "" = "".
Proof. reflexivity. Qed.

(** The guard [s && s.trim()] is the truthiness of [s.trim()]. *)
Lemma search_guard s : JS.truthy s && JS.truthy (JS.trim s) = JS.truthy (JS.trim s).
Proof. destruct s; reflexivity. Qed.

Lemma split_nonempty sep s : JS.split sep s <> [].
Proof.
  destruct s as [|c s]; simpl; [discriminate|].
  destruct (Ascii.eqb c sep); [discriminate|].
  destruct (JS.split sep s); discriminate.
Qed.

(* ===================================================================== *)
(** ** Facts about [buildFilterParams] *)
(* ===================================================================== *)

Ltac case_guards :=
  repeat match goal with
         | |- context [if ?b then _ else _] => destruct b
         | |- context [match ?o with Some _ => _ | None => _ end] => destruct o
         end.

Ltac age_frame s :=
  unfold buildAgeParams, ageRangeBranch, agePlusBranch;
  destruct (JS.truthy s); [|reflexivity];
  destruct (JS.destructure2 (JS.split "-" s)) as [[min|] [max|]];
  case_guards; reflexivity.

(** The age part touches no key but [age_min] and [age_max]. *)
Lemma age_keeps_search s p : q_search (buildAgeParams s p) = q_search p.
Proof. age_frame s. Qed.

Lemma age_keeps_customer_regions s p :
  q_customer_regions (buildAgeParams s p) = q_customer_regions p.
Proof. age_frame s. Qed.

Lemma age_keeps_genders s p : q_genders (buildAgeParams s p) = q_genders p.
Proof. age_frame s. Qed.

Lemma age_keeps_product_categories s p :
  q_product_categories (buildAgeParams s p) = q_product_categories p.
Proof. age_frame s. Qed.

Lemma age_keeps_tags s p : q_tags (buildAgeParams s p) = q_tags p.
Proof. age_frame s. Qed.

Lemma age_keeps_payment_methods s p :
  q_payment_methods (buildAgeParams s p) = q_payment_methods p.
Proof. age_frame s. Qed.

Lemma age_keeps_date_from s p : q_date_from (buildAgeParams s p) = q_date_from p.
Proof. age_frame s. Qed.

Lemma age_keeps_date_to s p : q_date_to (buildAgeParams s p) = q_date_to p.
Proof. age_frame s. Qed.

Lemma age_keeps_sort_by s p : q_sort_by (buildAgeParams s p) = q_sort_by p.
Proof. age_frame s. Qed.

Lemma age_keeps_sort_order s p : q_sort_order (buildAgeParams s p) = q_sort_order p.
Proof. age_frame s. Qed.

Lemma age_keeps_page s p : q_page (buildAgeParams s p) = q_page p.
Proof. age_frame s. Qed.

Lemma age_keeps_page_size s p : q_page_size (buildAgeParams s p) = q_page_size p.
Proof. age_frame s. Qed.

Create Rewrite HintDb age_frame.
#[local] Hint Rewrite age_keeps_search age_keeps_customer_regions age_keeps_genders
  age_keeps_product_categories age_keeps_tags age_keeps_payment_methods
  age_keeps_date_from age_keeps_date_to age_keeps_sort_by age_keeps_sort_order
  age_keeps_page age_keeps_page_size : age_frame.

(** Reading one key of [buildFilterParams f]: decide the guards of the list
    and date steps, then step over the age part. *)
Ltac read_key :=
  unfold buildFilterParams; cbv zeta;
  repeat match goal with
         | |- context [if (0 <? ?n) then _ else _] => destruct (0 <? n)
         | |- context [if JS.truthy ?d then _ else _] => destruct (JS.truthy d)
         end;
  cbn [q_search q_customer_regions q_genders q_age_min q_age_max
       q_product_categories q_tags q_payment_methods q_date_from q_date_to
       q_sort_by q_sort_order q_page q_page_size
       Params.set_customer_regions Params.set_genders
       Params.set_product_categories Params.set_tags Params.set_payment_methods
       Params.set_date_from];
  autorewrite with age_frame;
  try reflexivity.

Lemma filter_customer_regions f :
  q_customer_regions (buildFilterParams f) = lowered (fs_customer_regions f).
Proof. unfold lowered. read_key. Qed.

Lemma filter_genders f :
  q_genders (buildFilterParams f) = lowered (fs_genders f).
Proof. unfold lowered. read_key. Qed.

Lemma filter_product_categories f :
  q_product_categories (buildFilterParams f) = lowered (fs_product_categories f).
Proof. unfold lowered. read_key. Qed.

Lemma filter_tags f : q_tags (buildFilterParams f) = lowered (fs_tags f).
Proof. unfold lowered. read_key. Qed.

Lemma filter_payment_methods f :
  q_payment_methods (buildFilterParams f) = lowered (fs_payment_methods f).
Proof. unfold lowered. read_key. Qed.

Lemma filter_date_from f :
  q_date_from (buildFilterParams f) =
  if JS.truthy (fs_date_range f) then Some (fs_date_range f) else None.
Proof. read_key. Qed.

Lemma filter_search f : q_search (buildFilterParams f) = None.
Proof. read_key. Qed.

Lemma filter_date_to f : q_date_to (buildFilterParams f) = None.
Proof. read_key. Qed.

Lemma filter_sort_by f : q_sort_by (buildFilterParams f) = None.
Proof. read_key. Qed.

Lemma filter_sort_order f : q_sort_order (buildFilterParams f) = None.
Proof. read_key. Qed.

Lemma filter_page f : q_page (buildFilterParams f) = None.
Proof. read_key. Qed.

Lemma filter_page_size f : q_page_size (buildFilterParams f) = None.
Proof. read_key. Qed.

(* ===================================================================== *)
(** ** The two requests issued by [fetchData] *)
(* ===================================================================== *)

Lemma transactions_search st :
  q_search (params st) =
  if JS.truthy (JS.trim (debouncedSearchQuery st))
  then Some (JS.trim (debouncedSearchQuery st)) else None.
Proof.
  unfold params. cbv zeta. rewrite search_guard.
  destruct (JS.truthy (JS.trim (debouncedSearchQuery st)));
    cbn [Params.assign q_search Params.set_search]; rewrite filter_search; reflexivity.
Qed.

(** A filter key of the page request is the one of [filterParams]. *)
Lemma assign_key_absent {A} (o : option A) : Params.assign_key None o = o.
Proof. now destruct o. Qed.

Ltac from_filterParams :=
  intros; unfold params; cbv zeta;
  match goal with
  | |- context [if ?b then _ else _] => destruct b
  end; simpl; apply assign_key_absent.

Lemma transactions_customer_regions st :
  q_customer_regions (params st) =
  q_customer_regions (buildFilterParams (filters st)).
Proof. from_filterParams. Qed.

Lemma transactions_genders st :
  q_genders (params st) = q_genders (buildFilterParams (filters st)).
Proof. from_filterParams. Qed.

Lemma transactions_age_min st :
  q_age_min (params st) = q_age_min (buildFilterParams (filters st)).
Proof. from_filterParams. Qed.

Lemma transactions_age_max st :
  q_age_max (params st) = q_age_max (buildFilterParams (filters st)).
Proof. from_filterParams. Qed.

Lemma transactions_product_categories st :
  q_product_categories (params st) =
  q_product_categories (buildFilterParams (filters st)).
Proof. from_filterParams. Qed.

Lemma transactions_tags st :
  q_tags (params st) = q_tags (buildFilterParams (filters st)).
Proof. from_filterParams. Qed.

Lemma transactions_payment_methods st :
  q_payment_methods (params st) =
  q_payment_methods (buildFilterParams (filters st)).
Proof. from_filterParams. Qed.

Lemma transactions_date_from st :
  q_date_from (params st) = q_date_from (buildFilterParams (filters st)).
Proof. from_filterParams. Qed.

Lemma transactions_date_to st : q_date_to (params st) = None.
Proof.
  transitivity (q_date_to (buildFilterParams (filters st)));
    [from_filterParams | apply filter_date_to].
Qed.

(** Both requests carry the same filter set. *)
Lemma same_request_filters st :
  request_filters (summaryParams st) = request_filters (params st).
Proof.
  unfold request_filters, summaryParams.
  now rewrite transactions_customer_regions, transactions_genders,
    transactions_age_min, transactions_age_max, transactions_product_categories,
    transactions_tags, transactions_payment_methods, transactions_date_from.
Qed.

(* ===================================================================== *)
(** ** Claims about the request builder *)
(* ===================================================================== *)

(** C9.  For every debounced search string, the page request has a [search]
    key exactly when the string is non-empty after trimming, and the key's
    value is then the trimmed string. *)
Theorem search_param_iff_nonblank (st : HomeState) :
  let s := debouncedSearchQuery st in
  (q_search (params st) <> None <-> JS.trim s <> "") /\
  q_search (params st) =
    (if JS.truthy (JS.trim s) then Some (JS.trim s) else None).
Proof.
  cbv zeta. rewrite transactions_search.
  destruct (JS.truthy (JS.trim (debouncedSearchQuery st))) eqn:E.
  - apply truthy_true in E. repeat split; auto; discriminate.
  - apply truthy_false in E. repeat split; auto; congruence.
Qed.

(** C10.  For every filter state the date constraint sent is a lower bound
    only: [date_from] is the selected [date_range] when that is non-empty
    (and absent otherwise), and neither request ever has a [date_to] key. *)
Theorem date_filter_lower_bound_only (st : HomeState) :
  let d := fs_date_range (filters st) in
  q_date_from (params st) = (if JS.truthy d then Some d else None) /\
  q_date_from (summaryParams st) = (if JS.truthy d then Some d else None) /\
  q_date_to (params st) = None /\
  q_date_to (summaryParams st) = None.
Proof.
  cbv zeta. unfold summaryParams.
  rewrite transactions_date_from, transactions_date_to, filter_date_from, filter_date_to.
  repeat split.
Qed.

Lemma lowered_values l :
  Forall (fun v => JS.toLowerCase v = v)
         (match lowered l with Some l' => l' | None => [] end).
Proof.
  unfold lowered. destruct (0 <? _); [apply Forall_lowercased | constructor].
Qed.

Lemma summary_values_lowercase f :
  Forall (fun v => JS.toLowerCase v = v) (set_membership_values (buildFilterParams f)).
Proof.
  unfold set_membership_values. cbv zeta.
  rewrite filter_customer_regions, filter_genders, filter_product_categories,
    filter_tags, filter_payment_methods.
  repeat (apply Forall_app; split); apply lowered_values.
Qed.

(** C6.  For every filter state, every value of the five set-membership
    keys in the requests built by the front end is its own lowercased
    form. *)
Theorem filter_values_lowercase (st : HomeState) :
  Forall (fun v => JS.toLowerCase v = v) (set_membership_values (params st)) /\
  Forall (fun v => JS.toLowerCase v = v) (set_membership_values (summaryParams st)).
Proof.
  split; [|apply summary_values_lowercase].
  unfold set_membership_values. cbv zeta.
  rewrite transactions_customer_regions, transactions_genders,
    transactions_product_categories, transactions_tags, transactions_payment_methods.
  apply (summary_values_lowercase (filters st)).
Qed.

Lemma trimStart_blank s :
  Forall (fun c => JS.isWhiteSpace c = true) (list_ascii_of_string s) ->
  JS.trimStart s = "".
Proof.
  induction s as [|c s IH]; simpl; intros H; [reflexivity|].
  inversion H as [|? ? Hc Hs]; subst. rewrite Hc. auto.
Qed.

Lemma trim_blank s :
  Forall (fun c => JS.isWhiteSpace c = true) (list_ascii_of_string s) ->
  JS.trim s = "".
Proof. intros H. unfold JS.trim. now rewrite trimStart_blank. Qed.

Lemma filter_all {A} (p : A -> bool) (l : list A) :
  (forall x, p x = true) -> List.filter p l = l.
Proof.
  intros Hp. induction l as [|x l IH]; simpl; [reflexivity|].
  now rewrite Hp, IH.
Qed.

(** A request without a search key and without filter keys constrains
    nothing. *)
Lemma unconstrained_request dataset p :
  q_search p = None -> request_filters p = request_filters empty_params ->
  rows_matching dataset p = inr dataset.
Proof.
  intros Hs Hf. unfold rows_matching, Engine.matching. rewrite Hs, Hf.
  cbn. f_equal. unfold Engine.evaluate. now apply filter_all.
Qed.

(** C5.  In the query state whose multi-select lists are all empty, whose
    [age_range] and [date_range] are empty and whose search string is empty
    or white space only, the requests carry no search key and no filter key
    (the page request has its sort and page keys only, the summary request
    is the empty object), and such a request matches the entire dataset. *)
Theorem empty_query_matches_everything
  (st : HomeState) (dataset : list SalesTransaction)
  (Hfilters : filters st = noFilters)
  (Hsearch : Forall (fun c => JS.isWhiteSpace c = true)
                    (list_ascii_of_string (debouncedSearchQuery st))) :
  summaryParams st = empty_params /\
  params st =
    {| q_search := None; q_customer_regions := None; q_genders := None;
       q_age_min := None; q_age_max := None; q_product_categories := None;
       q_tags := None; q_payment_methods := None; q_date_from := None;
       q_date_to := None;
       q_sort_by := Some (sortBy st); q_sort_order := Some (sortOrder st);
       q_page := Some (currentPage st); q_page_size := Some 10 |} /\
  rows_matching dataset (params st) = inr dataset /\
  rows_matching dataset (summaryParams st) = inr dataset.
Proof.
  assert (Hsum : summaryParams st = empty_params)
    by (unfold summaryParams; rewrite Hfilters; reflexivity).
  assert (Htx : params st =
    {| q_search := None; q_customer_regions := None; q_genders := None;
       q_age_min := None; q_age_max := None; q_product_categories := None;
       q_tags := None; q_payment_methods := None; q_date_from := None;
       q_date_to := None;
       q_sort_by := Some (sortBy st); q_sort_order := Some (sortOrder st);
       q_page := Some (currentPage st); q_page_size := Some 10 |}).
  { unfold params. cbv zeta.
    rewrite search_guard, (trim_blank _ Hsearch), Hfilters. reflexivity. }
  repeat split; auto.
  - rewrite Htx. now apply unconstrained_request.
  - rewrite Hsum. now apply unconstrained_request.
Qed.

(* ===================================================================== *)
(** ** The age range *)
(* ===================================================================== *)

(** The age keys after the age part depend on the string alone. *)
Lemma age_keys_of_string s p :
  age_keys p = (None, None) ->
  age_keys (buildAgeParams s p) = age_keys (buildAgeParams s empty_params).
Proof.
  unfold age_keys. intros Hp. injection Hp as Hmin Hmax.
  unfold buildAgeParams, ageRangeBranch, agePlusBranch.
  destruct (JS.truthy s); [|simpl; congruence].
  destruct (JS.destructure2 (JS.split "-" s)) as [[min|] [max|]];
    case_guards; simpl; congruence.
Qed.

Lemma filter_age_keys f :
  age_keys (buildFilterParams f) = age_keys (buildAgeParams (fs_age_range f) empty_params).
Proof.
  rewrite <- (age_keys_of_string (fs_age_range f)
    (let fp := empty_params in
     let fp := if 0 <? Z.of_nat (List.length (fs_customer_regions f))
               then Params.set_customer_regions
                      (map JS.toLowerCase (fs_customer_regions f)) fp else fp in
     if 0 <? Z.of_nat (List.length (fs_genders f))
     then Params.set_genders (map JS.toLowerCase (fs_genders f)) fp else fp)).
  - unfold buildFilterParams, age_keys. cbv zeta.
    repeat match goal with
           | |- context [if (0 <? ?n) then _ else _] => destruct (0 <? n)
           | |- context [if JS.truthy ?d then _ else _] => destruct (JS.truthy d)
           end; reflexivity.
  - cbv zeta. case_guards; reflexivity.
Qed.

(** The age keys as a function of the shape of the string. *)
Lemma age_keys_by_form s :
  age_keys (buildAgeParams s empty_params) =
  match age_form s with
  | Between a b =>
      match JS.parseInt a, JS.parseInt b with
      | Some x, Some y =>
          if (0 <=? x) && (x <=? y) && (y <=? 150) then (Some x, Some y)
          else (None, None)
      | _, _ => (None, None)
      end
  | From n =>
      match JS.parseInt n with
      | Some x => if (0 <=? x) && (x <=? 150) then (Some x, None) else (None, None)
      | None => (None, None)
      end
  | OtherForm => (None, None)
  end.
Proof.
  unfold buildAgeParams, age_form, JS.destructure2.
  destruct s as [|c s]; [reflexivity|].
  cbn [JS.truthy].
  destruct (JS.split "-" (String c s)) as [|a [|b rest]]; cbn [nth_error].
  - reflexivity.
  - unfold agePlusBranch. case_guards; reflexivity.
  - destruct (JS.truthy b).
    + unfold ageRangeBranch.
      destruct (JS.parseInt a) as [x|]; [|reflexivity].
      destruct (JS.parseInt b) as [y|]; [|reflexivity].
      destruct (0 <=? x) eqn:E0, (y <=? 150) eqn:E1, (x <=? y) eqn:E2; reflexivity.
    + unfold agePlusBranch. case_guards; reflexivity.
Qed.

(** C7.  For every age-range string the request never has
    [age_min > age_max]: for "a-b" both keys are included exactly when both
    pieces parse to numbers with [0 <= age_min <= age_max <= 150]; for "N+"
    only [age_min] is included, when [0 <= N <= 150]; for any other string
    neither key is included. *)
Theorem age_params_consistent (f : FilterState) :
  let p := buildFilterParams f in
  match q_age_min p, q_age_max p with
  | Some lo, Some hi => 0 <= lo <= hi /\ hi <= 150
  | Some lo, None => 0 <= lo <= 150
  | None, Some _ => False
  | None, None => True
  end /\
  match age_form (fs_age_range f) with
  | Between a b =>
      (q_age_min p, q_age_max p) =
      match JS.parseInt a, JS.parseInt b with
      | Some x, Some y =>
          if (0 <=? x) && (x <=? y) && (y <=? 150) then (Some x, Some y)
          else (None, None)
      | _, _ => (None, None)
      end
  | From n =>
      q_age_max p = None /\
      q_age_min p =
      match JS.parseInt n with
      | Some x => if (0 <=? x) && (x <=? 150) then Some x else None
      | None => None
      end
  | OtherForm => q_age_min p = None /\ q_age_max p = None
  end.
Proof.
  cbv zeta.
  pose proof (filter_age_keys f) as Hkeys.
  rewrite age_keys_by_form in Hkeys. unfold age_keys in Hkeys.
  destruct (age_form (fs_age_range f)) as [a b|n|].
  - destruct (JS.parseInt a) as [x|], (JS.parseInt b) as [y|];
      try (injection Hkeys as Hmin Hmax; rewrite Hmin, Hmax; now split).
    destruct ((0 <=? x) && (x <=? y) && (y <=? 150)) eqn:E;
      injection Hkeys as Hmin Hmax; rewrite Hmin, Hmax; [|now split].
    apply andb_true_iff in E as [E E3]. apply andb_true_iff in E as [E1 E2].
    split; [lia | reflexivity].
  - destruct (JS.parseInt n) as [x|];
      [|injection Hkeys as Hmin Hmax; rewrite Hmin, Hmax; now repeat split].
    destruct ((0 <=? x) && (x <=? 150)) eqn:E;
      injection Hkeys as Hmin Hmax; rewrite Hmin, Hmax; [|now repeat split].
    apply andb_true_iff in E as [E1 E2]. repeat split; lia.
  - injection Hkeys as Hmin Hmax. rewrite Hmin, Hmax. now repeat split.
Qed.

(* ===================================================================== *)
(** ** The sort dropdown *)
(* ===================================================================== *)

(** A field name without the separator comes back from [split] whole. *)
Lemma split_at_first sep (a b : string) :
  Forall (fun c => c <> sep) (list_ascii_of_string a) ->
  JS.split sep (a ++ String sep b) = a :: JS.split sep b.
Proof.
  induction a as [|c a IH]; simpl; intros H.
  - now rewrite Ascii.eqb_refl.
  - inversion H as [|? ? Hc Ha]; subst.
    apply Ascii.eqb_neq in Hc. rewrite Hc, (IH Ha). reflexivity.
Qed.

Lemma split_whole sep (s : string) :
  Forall (fun c => c <> sep) (list_ascii_of_string s) -> JS.split sep s = [s].
Proof.
  induction s as [|c s IH]; simpl; intros H; [reflexivity|].
  inversion H as [|? ? Hc Hs]; subst. apply Ascii.eqb_neq in Hc.
  rewrite Hc, (IH Hs). reflexivity.
Qed.

(** Writing a pair as an option value and splitting it gives the pair back
    when neither part holds a '_'. *)
Lemma sort_value_roundtrip field order :
  Forall (fun c => c <> "_"%char) (list_ascii_of_string field) ->
  Forall (fun c => c <> "_"%char) (list_ascii_of_string order) ->
  sortOptionArgs (sortOptionValue field order) = (Some field, Some order).
Proof.
  intros Hf Ho. unfold sortOptionArgs, sortOptionValue, JS.destructure2.
  change (field ++ "_" ++ order) with (field ++ String "_" order).
  rewrite (split_at_first _ _ _ Hf), (split_whole _ _ Ho). reflexivity.
Qed.

(** C2.  The two Customer Name options do not give back their pair: the
    value [customer_name_asc] (and likewise [customer_name_desc]) splits at
    every '_' into [customer], [name], [asc], and the button calls
    [onSortChange("customer", "name")]; the state then holds a sort field
    the Sorter does not support.  The four date and quantity options do give
    back their pair. *)
Theorem customer_name_option_split :
  sortOptionArgs "customer_name_asc" = (Some "customer", Some "name") /\
  sortOptionArgs "customer_name_desc" = (Some "customer", Some "name") /\
  sortBy (sortOptionClick "customer_name_asc" initialState) = "customer" /\
  sortOrder (sortOptionClick "customer_name_asc" initialState) = "name" /\
  q_sort_by (params (sortOptionClick "customer_name_asc" initialState))
    = Some "customer" /\
  Engine.supported_field "customer" = None /\
  map (fun o => sortOptionArgs (fst o)) (firstn 4 sortOptions) =
    [ (Some "date", Some "desc"); (Some "date", Some "asc");
      (Some "quantity", Some "desc"); (Some "quantity", Some "asc") ].
Proof. repeat split. Qed.

(* ===================================================================== *)
(** ** Failed requests *)
(* ===================================================================== *)

(** C8.  When the awaited requests fail with HTTP status 400, the message is
    shown to the user (the [detail] of the response body when it has a
    non-empty one) and the displayed transactions, total, total pages and
    summary are left as they were; on any other error they are reset to the
    empty result.  Loading ends in both cases. *)
Theorem fetch_error_handling (closure st : HomeState) (error : FetchError) :
  let result := fetchData_settle closure (Rejected error) st in
  (forall r, response error = Some r -> status r = 400 ->
     snd result = [errorMessage error] /\
     (forall d, data r = Some {| detail := Some d |} -> d <> "" -> snd result = [d]) /\
     st_transactions (fst result) = st_transactions st /\
     st_total (fst result) = st_total st /\
     totalPages (fst result) = totalPages st /\
     summary (fst result) = summary st) /\
  ((forall r, response error = Some r -> status r <> 400) ->
     snd result = [] /\
     st_transactions (fst result) = [] /\
     st_total (fst result) = 0 /\
     totalPages (fst result) = 0 /\
     summary (fst result) = zeroSummary) /\
  loading (fst result) = false.
Proof.
  cbv zeta. unfold fetchData_settle, status_is_400.
  destruct (response error) as [r|] eqn:Hresp.
  - destruct (status r =? 400) eqn:E; cbn [fst snd]; split; [|split| |split].
    + intros r' Hr' _. injection Hr' as <-. repeat split.
      intros d Hd Hne. unfold errorMessage. rewrite Hresp.
      destruct r as [code body]; simpl in Hd; subst body.
      apply truthy_true in Hne. now rewrite Hne.
    + intros H. exfalso. apply (H r eq_refl). now apply Z.eqb_eq.
    + reflexivity.
    + intros r' Hr' Hs. injection Hr' as <-. apply Z.eqb_neq in E. contradiction.
    + intros _. repeat split.
    + reflexivity.
  - cbn [fst snd]. split; [|split].
    + intros r Hr. discriminate.
    + intros _. repeat split.
    + reflexivity.
Qed.

(* ===================================================================== *)
(** ** Summary and page requests *)
(* ===================================================================== *)

(** Validation looks at the age bounds only: a filter set is rejected for
    every search or accepted for every search. *)
Lemma build_predicate_cases f :
  (exists e, forall search, Engine.build_predicate search f = inl e) \/
  (forall search,
     Engine.build_predicate search f =
     inr (fun r => Engine.search_predicate search r && Engine.filter_predicate f r)).
Proof.
  unfold Engine.build_predicate.
  destruct (Engine.age_min f) as [lo|], (Engine.age_max f) as [hi|]; auto.
  destruct (hi <? lo); eauto.
Qed.

Lemma filter_length_and {A} (p q : A -> bool) (l : list A) :
  (List.length (List.filter (fun x => p x && q x) l)
   <= List.length (List.filter q l))%nat.
Proof.
  induction l as [|x l IH]; simpl; [lia|].
  destruct (p x), (q x); simpl; lia.
Qed.

(** The count the summary answers with is the number of rows its request
    matches. *)
Lemma summary_records dataset p :
  Engine.on_result total_sales_records (summary_of dataset p) =
  Engine.total_matched dataset (q_search p) (request_filters p).
Proof.
  unfold summary_of, Engine.run_summary, Engine.total_matched.
  destruct (Engine.matching dataset (q_search p) (request_filters p)); reflexivity.
Qed.

(** C1, the claim at the state [searchingAlice] over [twoSales]: a search
    is active, the page request carries it and the summary request does not,
    and the summary counts two records where the page query matches one. *)
Lemma summary_request_drops_search :
  JS.trim (debouncedSearchQuery searchingAlice) <> "" /\
  q_search (params searchingAlice) = Some "alice" /\
  q_search (summaryParams searchingAlice) <> q_search (params searchingAlice) /\
  transactions_total twoSales (params searchingAlice) = inr 1 /\
  Engine.on_result total_sales_records
    (summary_of twoSales (summaryParams searchingAlice)) = inr 2.
Proof.
  repeat split; try discriminate; vm_compute; reflexivity.
Qed.

(** C1, amended.  For every query state the summary request carries the
    filter keys of the page request and never a search key, so the summary
    is computed over the records matching the filters alone:
    [total_sales_records] is the number of records the filters match, it is
    never below the [total_matched] of the page query, and it equals that
    [total_matched] when the search string is empty after trimming. *)
Theorem summary_over_filters_only
  (st : HomeState) (dataset : list SalesTransaction) :
  q_search (summaryParams st) = None /\
  request_filters (summaryParams st) = request_filters (params st) /\
  Engine.on_result total_sales_records (summary_of dataset (summaryParams st)) =
    Engine.total_matched dataset None (request_filters (params st)) /\
  match transactions_total dataset (params st),
        Engine.on_result total_sales_records (summary_of dataset (summaryParams st))
  with
  | inr matched, inr records => matched <= records
  | inl e, inl e' => e = e'
  | _, _ => False
  end /\
  (JS.trim (debouncedSearchQuery st) = "" ->
   Engine.on_result total_sales_records (summary_of dataset (summaryParams st)) =
   transactions_total dataset (params st)).
Proof.
  assert (Hs : q_search (summaryParams st) = None) by apply filter_search.
  assert (Hrecords :
    Engine.on_result total_sales_records (summary_of dataset (summaryParams st)) =
    Engine.total_matched dataset None (request_filters (params st))).
  { rewrite summary_records, Hs, same_request_filters. reflexivity. }
  repeat split; auto using same_request_filters.
  - rewrite Hrecords. unfold transactions_total, Engine.total_matched, Engine.matching.
    destruct (build_predicate_cases (request_filters (params st)))
      as [[e He]|Hok].
    + now rewrite !He.
    + rewrite !Hok. unfold Engine.evaluate.
      apply inj_le. etransitivity; [apply filter_length_and|].
      apply Nat.eq_le_incl. f_equal.
  - intros Hblank. rewrite Hrecords. unfold transactions_total.
    rewrite transactions_search, Hblank. reflexivity.
Qed.

(** At the starting state, over [twoSales]: the search is blank and both
    queries count two records. *)
Lemma summary_over_filters_only_blank :
  JS.trim (debouncedSearchQuery initialState) = "" /\
  Engine.on_result total_sales_records
    (summary_of twoSales (summaryParams initialState)) =
  transactions_total twoSales (params initialState).
Proof.
  split; [reflexivity|].
  apply (summary_over_filters_only initialState twoSales). reflexivity.
Defined.

(* ===================================================================== *)
(** ** The merge sort: permutation, order, stability *)
(* ===================================================================== *)

Lemma filter_none {A} (p : A -> bool) (l : list A) :
  (forall x, In x l -> p x = false) -> List.filter p l = [].
Proof.
  induction l as [|x l IH]; simpl; intros H; [reflexivity|].
  rewrite (H x (or_introl eq_refl)). apply IH. intros y Hy. apply H. now right.
Qed.

Section MergeSortFacts.

Context {A : Type} (le : A -> A -> bool).

Hypothesis le_total : forall x y, le x y = true \/ le y x = true.
Hypothesis le_trans : forall x y z, le x y = true -> le y z = true -> le x z = true.

Local Abbreviation ordered := (StronglySorted (fun x y => le x y = true)).

Lemma merge_nil_r (l : list A) : Engine.merge le l [] = l.
Proof. destruct l; reflexivity. Qed.

Lemma merge_cons (a b : A) (l r : list A) :
  Engine.merge le (a :: l) (b :: r) =
  if le a b then a :: Engine.merge le l (b :: r)
  else b :: Engine.merge le (a :: l) r.
Proof. reflexivity. Qed.

Lemma merge_perm (l r : list A) : Permutation (Engine.merge le l r) (l ++ r).
Proof.
  revert r. induction l as [|a l IHl]; intros r.
  - destruct r; reflexivity.
  - induction r as [|b r IHr].
    + rewrite merge_nil_r, app_nil_r. reflexivity.
    + rewrite merge_cons. destruct (le a b).
      * simpl. constructor. apply IHl.
      * rewrite IHr. apply Permutation_middle.
Qed.

Lemma merge_ordered (l r : list A) :
  ordered l -> ordered r -> ordered (Engine.merge le l r).
Proof.
  revert r. induction l as [|a l IHl]; intros r Hl Hr.
  - destruct r; assumption.
  - induction r as [|b r IHr].
    + now rewrite merge_nil_r.
    + rewrite merge_cons.
      inversion Hl as [|? ? Hl' Ha]; subst.
      inversion Hr as [|? ? Hr' Hb]; subst.
      destruct (le a b) eqn:Hab.
      * constructor; [now apply IHl|].
        rewrite merge_perm. apply Forall_app. split; [assumption|].
        constructor; [assumption|].
        eapply Forall_impl; [|exact Hb]. intros c Hc. now apply le_trans with b.
      * assert (Hba : le b a = true)
          by (destruct (le_total a b) as [H|H]; congruence).
        constructor; [now apply IHr|].
        rewrite merge_perm. apply Forall_app. split; [|assumption].
        constructor; [assumption|].
        eapply Forall_impl; [|exact Ha]. intros c Hc. now apply le_trans with a.
Qed.

(** Merging keeps the members of one key class in the order left run, then
    right run, provided the left run is ordered. *)
Lemma merge_filter (same : A -> bool) (l r : list A) :
  (forall x y, same x = true -> same y = true -> le x y = true) ->
  ordered l ->
  List.filter same (Engine.merge le l r) =
  (List.filter same l ++ List.filter same r)%list.
Proof.
  intros Hclass. revert r. induction l as [|a l IHl]; intros r Hl.
  - destruct r; reflexivity.
  - induction r as [|b r IHr].
    + now rewrite merge_nil_r, app_nil_r.
    + rewrite merge_cons. inversion Hl as [|? ? Hl' Ha]; subst.
      destruct (le a b) eqn:Hab.
      * cbn [List.filter]. rewrite (IHl _ Hl').
        destruct (same a); reflexivity.
      * cbn [List.filter] in *. rewrite IHr.
        destruct (same b) eqn:Hb; [|reflexivity].
        assert (Hnone : List.filter same (a :: l) = []).
        { apply filter_none. intros c Hc.
          destruct (same c) eqn:Hsc; [|reflexivity]. exfalso.
          assert (Hac : le a c = true).
          { destruct Hc as [<-|Hc].
            - destruct (le_total a a); assumption.
            - rewrite Forall_forall in Ha. now apply Ha. }
          pose proof (le_trans _ _ _ Hac (Hclass _ _ Hsc Hb)). congruence. }
        cbn [List.filter] in Hnone. rewrite Hnone. reflexivity.
Qed.

Lemma merge_sort_perm (l : list A) : Permutation (Engine.merge_sort le l) l.
Proof.
  funelim (Engine.merge_sort le l); try reflexivity.
  rewrite merge_perm.
  match goal with
  | H1 : Permutation (Engine.merge_sort le (firstn _ _)) _,
    H2 : Permutation (Engine.merge_sort le (skipn _ _)) _ |- _ =>
      rewrite H1, H2
  end.
  now rewrite firstn_skipn.
Qed.

Lemma merge_sort_ordered (l : list A) : ordered (Engine.merge_sort le l).
Proof.
  funelim (Engine.merge_sort le l).
  - constructor.
  - repeat constructor.
  - now apply merge_ordered.
Qed.

Lemma merge_sort_stable (same : A -> bool) (l : list A) :
  (forall x y, same x = true -> same y = true -> le x y = true) ->
  List.filter same (Engine.merge_sort le l) = List.filter same l.
Proof.
  intros Hclass. funelim (Engine.merge_sort le l); try reflexivity.
  rewrite merge_filter; auto using merge_sort_ordered.
  match goal with
  | H1 : forall same, _ -> List.filter same (Engine.merge_sort le (firstn _ _)) = _,
    H2 : forall same, _ -> List.filter same (Engine.merge_sort le (skipn _ _)) = _
    |- _ => rewrite (H1 same Hclass), (H2 same Hclass)
  end.
  now rewrite <- filter_app, firstn_skipn.
Qed.

End MergeSortFacts.

(* ===================================================================== *)
(** ** The order on sort keys *)
(* ===================================================================== *)

Lemma string_leb_refl s : String.leb s s = true.
Proof. destruct (String.leb_total s s); assumption. Qed.

Lemma string_leb_trans a : forall b c,
  String.leb a b = true -> String.leb b c = true -> String.leb a c = true.
Proof.
  unfold String.leb.
  induction a as [|x a IH]; intros [|y b] [|z c]; simpl; try congruence.
  unfold Ascii.compare.
  destruct (N.compare_spec (N_of_ascii x) (N_of_ascii y)) as [Exy|Lxy|Gxy];
    try congruence.
  - rewrite Exy. destruct (N_of_ascii y ?= N_of_ascii z)%N; auto. apply IH.
  - destruct (N.compare_spec (N_of_ascii y) (N_of_ascii z)) as [Eyz|Lyz|Gyz];
      try congruence; intros _ _.
    + rewrite <- Eyz. now rewrite (proj2 (N.compare_lt_iff _ _) Lxy).
    + now rewrite (proj2 (N.compare_lt_iff _ _) (N.lt_trans _ _ _ Lxy Lyz)).
Qed.

Lemma key_leb_total a b : Engine.key_leb a b = true \/ Engine.key_leb b a = true.
Proof.
  destruct a as [x|x], b as [y|y]; simpl; auto.
  - destruct (Z.leb_spec x y), (Z.leb_spec y x); auto; lia.
  - apply String.leb_total.
Qed.

Lemma key_leb_trans a b c :
  Engine.key_leb a b = true -> Engine.key_leb b c = true -> Engine.key_leb a c = true.
Proof.
  destruct a as [x|x], b as [y|y], c as [z|z]; simpl; try congruence.
  - rewrite !Z.leb_le. lia.
  - apply string_leb_trans.
Qed.

Lemma key_eqb_eq a b : Engine.key_eqb a b = true <-> a = b.
Proof.
  destruct a as [x|x], b as [y|y]; simpl; split; try congruence.
  - intros H. apply Z.eqb_eq in H. congruence.
  - intros H. injection H as ->. apply Z.eqb_refl.
  - intros H. apply String.eqb_eq in H. congruence.
  - intros H. injection H as ->. apply String.eqb_refl.
Qed.

Lemma directed_leb_total d a b :
  Engine.directed_leb d a b = true \/ Engine.directed_leb d b a = true.
Proof. destruct d; simpl; apply key_leb_total. Qed.

Lemma directed_leb_trans d a b c :
  Engine.directed_leb d a b = true -> Engine.directed_leb d b c = true ->
  Engine.directed_leb d a c = true.
Proof. destruct d; simpl; eauto using key_leb_trans. Qed.

Lemma directed_leb_refl d a : Engine.directed_leb d a a = true.
Proof. destruct (directed_leb_total d a a); assumption. Qed.

Lemma supported_field_name f : Engine.supported_field (Engine.field_name f) = Some f.
Proof. destruct f; reflexivity. Qed.

(* ===================================================================== *)
(** ** Sorter *)
(* ===================================================================== *)

(** A member of a filtered list splits the list it was filtered from. *)
Lemma filter_split {A} (p : A -> bool) (l : list A) : forall u x v,
  List.filter p l = (u ++ x :: v)%list ->
  exists l1 l2, l = (l1 ++ x :: l2)%list /\
                List.filter p l1 = u /\ List.filter p l2 = v.
Proof.
  induction l as [|a l IH]; intros u x v H; simpl in H.
  - destruct u; discriminate.
  - destruct (p a) eqn:Hpa.
    + destruct u as [|b u]; simpl in H; injection H as -> H.
      * exists [], l. auto.
      * destruct (IH _ _ _ H) as (l1 & l2 & -> & Hu & Hv).
        exists (b :: l1), l2. simpl. rewrite Hpa, Hu. auto.
    + destruct (IH _ _ _ H) as (l1 & l2 & -> & Hu & Hv).
      exists (a :: l1), l2. simpl. rewrite Hpa. auto.
Qed.

(** Two lists with the same members of a class, in the same order: a pair
    of members in that order in one is in that order in the other. *)
Lemma same_class_order {A} (p : A -> bool) (l l' : list A) x y before between after :
  List.filter p l' = List.filter p l ->
  p x = true -> p y = true ->
  l = (before ++ x :: between ++ y :: after)%list ->
  exists before' between' after',
    l' = (before' ++ x :: between' ++ y :: after')%list.
Proof.
  intros Hsame Hx Hy ->.
  rewrite filter_app in Hsame. cbn [List.filter] in Hsame. rewrite Hx in Hsame.
  apply filter_split in Hsame as (l1 & l2 & -> & _ & Hrest).
  rewrite filter_app in Hrest. cbn [List.filter] in Hrest. rewrite Hy in Hrest.
  apply filter_split in Hrest as (m1 & m2 & -> & _ & _).
  now exists l1, m1, m2.
Qed.

(** C3.  For every filtered sequence, every supported sort field and both
    directions, the Sorter succeeds with a permutation of its input that is
    ordered by the field's key in the given direction and is stable: the
    records with any one key are in their input order, so two records with
    equal keys keep their relative order.  For [customer_name] the key is
    the lowercased name: records whose names differ only by case keep their
    relative order. *)
Theorem sort_is_stable
  (rows : list SalesTransaction) (f : Engine.SortField) (d : Engine.Direction) :
  exists sorted,
    Engine.sort rows (Engine.field_name f) d = inr sorted /\
    Permutation sorted rows /\
    StronglySorted
      (fun x y => Engine.directed_leb d (Engine.sort_key f x) (Engine.sort_key f y) = true)
      sorted /\
    (forall k,
       List.filter (fun r => Engine.key_eqb (Engine.sort_key f r) k) sorted =
       List.filter (fun r => Engine.key_eqb (Engine.sort_key f r) k) rows) /\
    (forall x y before between after,
       rows = (before ++ x :: between ++ y :: after)%list ->
       Engine.sort_key f x = Engine.sort_key f y ->
       exists before' between' after',
         sorted = (before' ++ x :: between' ++ y :: after')%list) /\
    (f = Engine.ByCustomerName ->
     forall x y before between after,
       rows = (before ++ x :: between ++ y :: after)%list ->
       JS.toLowerCase (customer_name x) = JS.toLowerCase (customer_name y) ->
       exists before' between' after',
         sorted = (before' ++ x :: between' ++ y :: after')%list).
Proof.
  set (le := fun x y =>
    Engine.directed_leb d (Engine.sort_key f x) (Engine.sort_key f y)).
  assert (Htotal : forall x y, le x y = true \/ le y x = true)
    by (intros; apply directed_leb_total).
  assert (Htrans : forall x y z, le x y = true -> le y z = true -> le x z = true)
    by (intros x y z; apply directed_leb_trans).
  assert (Hstable : forall k,
    List.filter (fun r => Engine.key_eqb (Engine.sort_key f r) k)
                (Engine.merge_sort le rows) =
    List.filter (fun r => Engine.key_eqb (Engine.sort_key f r) k) rows).
  { intros k. apply merge_sort_stable; auto.
    intros x y Hx Hy. apply key_eqb_eq in Hx, Hy. unfold le.
    rewrite Hx, Hy. apply directed_leb_refl. }
  assert (Hpairs : forall x y before between after,
    rows = (before ++ x :: between ++ y :: after)%list ->
    Engine.sort_key f x = Engine.sort_key f y ->
    exists before' between' after',
      Engine.merge_sort le rows = (before' ++ x :: between' ++ y :: after')%list).
  { intros x y before between after Hrows Hkey.
    eapply (same_class_order _ rows _ x y); [apply (Hstable (Engine.sort_key f x))| | |exact Hrows].
    - now apply key_eqb_eq.
    - now apply key_eqb_eq. }
  exists (Engine.merge_sort le rows).
  unfold Engine.sort. rewrite supported_field_name.
  repeat split; auto.
  - now apply merge_sort_perm.
  - now apply merge_sort_ordered.
  - intros -> x y before between after Hrows Hname.
    apply (Hpairs x y before between after Hrows). simpl. now rewrite Hname.
Qed.

(* ===================================================================== *)
(** ** Paginator *)
(* ===================================================================== *)

(** [ceil_div n size] is the least [k] with [n <= k * size]. *)
Lemma ceil_div_spec n size :
  1 <= size ->
  (Engine.ceil_div n size - 1) * size < n <= Engine.ceil_div n size * size.
Proof.
  intros Hsize. unfold Engine.ceil_div.
  pose proof (Z.mul_div_le (n + size - 1) size ltac:(lia)).
  pose proof (Z.mul_succ_div_gt (n + size - 1) size ltac:(lia)).
  nia.
Qed.

Lemma ceil_div_zero size : 1 <= size -> Engine.ceil_div 0 size = 0.
Proof.
  intros Hsize. unfold Engine.ceil_div. apply Z.div_small. lia.
Qed.

Lemma slice_nth {A} (l : list A) (start stop : Z) (i : nat) :
  0 <= start ->
  nth_error (Engine.slice l start stop) i =
  if Z.of_nat i <? stop - start then nth_error l (Z.to_nat start + i) else None.
Proof.
  intros Hstart. unfold Engine.slice.
  rewrite nth_error_firstn, nth_error_skipn.
  destruct (Nat.ltb_spec i (Z.to_nat (stop - start))),
           (Z.ltb_spec (Z.of_nat i) (stop - start)); auto; lia.
Qed.

Lemma slice_length {A} (l : list A) (start stop : Z) :
  0 <= start ->
  Z.of_nat (List.length (Engine.slice l start stop)) =
  Z.max 0 (Z.min (stop - start) (Z.of_nat (List.length l) - start)).
Proof.
  intros Hstart. unfold Engine.slice.
  rewrite length_firstn, length_skipn. lia.
Qed.

(** C4.  For every ordered sequence, every [page >= 1] and every
    [page_size >= 1], the Paginator succeeds; its page is the sub-sequence at
    positions [skip .. skip + page_size - 1] with
    [skip = (page - 1) * page_size], clipped to the sequence (empty when
    [skip] is at or beyond the length), and [total_pages] is the ceiling of
    [total_matched / page_size], which is 0 when nothing matched. *)
Theorem pagination_window
  (rows : list SalesTransaction) (page page_size : Z)
  (Hpage : 1 <= page) (Hsize : 1 <= page_size) :
  let skip := (page - 1) * page_size in
  let total_matched := Z.of_nat (List.length rows) in
  exists rows_of_page pages,
    Engine.paginate rows page page_size = inr (rows_of_page, pages) /\
    (forall i : nat,
       nth_error rows_of_page i =
       if Z.of_nat i <? page_size then nth_error rows (Z.to_nat skip + i) else None) /\
    Z.of_nat (List.length rows_of_page) =
      Z.max 0 (Z.min page_size (total_matched - skip)) /\
    (total_matched <= skip -> rows_of_page = []) /\
    (pages - 1) * page_size < total_matched <= pages * page_size /\
    (total_matched = 0 -> pages = 0).
Proof.
  cbv zeta. unfold Engine.paginate.
  destruct (Z.ltb_spec page 1); [lia|].
  destruct (Z.ltb_spec page_size 1); [lia|].
  assert (Hskip : 0 <= (page - 1) * page_size) by nia.
  eexists _, _. split; [reflexivity|].
  assert (Hlen : Z.of_nat (List.length
            (Engine.slice rows ((page - 1) * page_size)
                          ((page - 1) * page_size + page_size))) =
          Z.max 0 (Z.min page_size
                     (Z.of_nat (List.length rows) - (page - 1) * page_size))).
  { rewrite slice_length by assumption. f_equal. f_equal. lia. }
  repeat split.
  - intros i. rewrite slice_nth by assumption.
    replace ((page - 1) * page_size + page_size - (page - 1) * page_size)
      with page_size by lia.
    reflexivity.
  - exact Hlen.
  - intros Hbeyond.
    destruct (Engine.slice rows _ _) as [|r rest]; [reflexivity|].
    cbn [List.length] in Hlen. lia.
  - apply ceil_div_spec; assumption.
  - apply ceil_div_spec; assumption.
  - intros ->. now apply ceil_div_zero.
Qed.

(* ===================================================================== *)
(** ** Worked cases *)
(* ===================================================================== *)

Example split_age : JS.split "-" "18-25" = ["18"; "25"].
Proof. reflexivity. Qed.

Example split_open_age : JS.split "-" "65+" = ["65+"].
Proof. reflexivity. Qed.

Example parseInt_prefix : JS.parseInt "  -12ab" = Some (-12).
Proof. reflexivity. Qed.

Example parseInt_nan : JS.parseInt "abc" = None.
Proof. reflexivity. Qed.

Example trim_both_ends : JS.trim "  a b  " = "a b".
Proof. reflexivity. Qed.

Example lower_mixed : JS.toLowerCase "North-EAST 1" = "north-east 1".
Proof. reflexivity. Qed.

(** The six options of the age dropdown and the keys they produce. *)
Example age_range_options :
  map (fun v => age_keys (buildFilterParams (withAgeRange v))) ageRangeOptions =
  [ (Some 18, Some 25); (Some 26, Some 35); (Some 36, Some 45);
    (Some 46, Some 55); (Some 56, Some 65); (Some 65, None) ].
Proof. reflexivity. Qed.

(** A reversed range and an out-of-range bound produce no key. *)
Example age_range_rejected :
  map (fun v => age_keys (buildFilterParams (withAgeRange v))) ["40-30"; "10-200"; "151+"; "old"] =
  [ (None, None); (None, None); (None, None); (None, None) ].
Proof. reflexivity. Qed.

(** Section 8 scenario: [customer_name] ascending over bob, Alice, alice. *)
Example sort_three_names :
  Engine.on_result (map customer_name) (Engine.sort threeNames "customer_name" Engine.Asc)
    = inr ["Alice"; "alice"; "bob"] /\
  Engine.on_result (map customer_name) (Engine.sort threeNames "customer_name" Engine.Desc)
    = inr ["bob"; "Alice"; "alice"].
Proof. split; reflexivity. Qed.

(** Section 8 scenario: five matching records in pages of two. *)
Example paginate_five :
  Engine.on_result (fun r => (map transaction_id (fst r), snd r))
                   (Engine.paginate fiveSales 1 2) = inr ([1; 2], 3) /\
  Engine.on_result (fun r => (map transaction_id (fst r), snd r))
                   (Engine.paginate fiveSales 3 2) = inr ([5], 3) /\
  Engine.on_result (fun r => (map transaction_id (fst r), snd r))
                   (Engine.paginate fiveSales 4 2) = inr ([], 3).
Proof. repeat split; reflexivity. Qed.

(** Section 8 scenario: the search "987" matches a phone number. *)
Example search_phone_digits :
  Engine.matches_search "987" (sale 1 "2023-01-05" "Asha" 30 2) = true /\
  Engine.matches_search "9876543210" (sale 1 "2023-01-05" "Asha" 30 2) = true.
Proof. split; reflexivity. Qed.

(** Section 8 scenario: [age_min=40, age_max=30] is a validation error. *)
Example reversed_age_rejected :
  Engine.matching twoSales None
    {| Engine.customer_regions := []; Engine.genders := [];
       Engine.product_categories := []; Engine.tag_set := [];
       Engine.payment_methods := []; Engine.age_min := Some 40;
       Engine.age_max := Some 30; Engine.date_from := None |}
  = inl (Engine.ValidationError "age_min cannot be greater than age_max").
Proof. reflexivity. Qed.

(* ===================================================================== *)
(** ** The theorems at concrete inputs *)
(* ===================================================================== *)

(** C5 at [blankSearch] over [twoSales]. *)
Lemma empty_query_blank_search :
  filters blankSearch = noFilters /\
  Forall (fun c => JS.isWhiteSpace c = true)
         (list_ascii_of_string (debouncedSearchQuery blankSearch)) /\
  summaryParams blankSearch = empty_params /\
  rows_matching twoSales (params blankSearch) = inr twoSales.
Proof.
  assert (Hblank : Forall (fun c => JS.isWhiteSpace c = true)
                          (list_ascii_of_string (debouncedSearchQuery blankSearch)))
    by (repeat constructor).
  split; [reflexivity|]. split; [exact Hblank|].
  destruct (empty_query_matches_everything blankSearch twoSales eq_refl Hblank)
    as (Hsum & _ & Hrows & _).
  split; assumption.
Defined.

(** C8 at a 400 answer and at a network failure, from [showingTwo]. *)
Lemma fetch_error_cases :
  (response rejected400 = Some {| status := 400;
       data := Some {| detail := Some "age_min cannot be greater than age_max" |} |} /\
   snd (fetchData_settle showingTwo (Rejected rejected400) showingTwo)
     = ["age_min cannot be greater than age_max"] /\
   st_transactions (fst (fetchData_settle showingTwo (Rejected rejected400) showingTwo))
     = twoSales) /\
  ((forall r, response networkError = Some r -> status r <> 400) /\
   st_transactions (fst (fetchData_settle showingTwo (Rejected networkError) showingTwo))
     = [] /\
   st_total (fst (fetchData_settle showingTwo (Rejected networkError) showingTwo)) = 0).
Proof.
  split.
  - destruct (fetch_error_handling showingTwo showingTwo rejected400) as (H400 & _ & _).
    destruct (H400 _ eq_refl eq_refl) as (_ & Hdetail & Hrows & _).
    split; [reflexivity|]. split.
    + apply (Hdetail _ eq_refl). discriminate.
    + exact Hrows.
  - assert (Hother : forall r, response networkError = Some r -> status r <> 400)
      by (intros r Hr; discriminate Hr).
    destruct (fetch_error_handling showingTwo showingTwo networkError) as (_ & Hreset & _).
    destruct (Hreset Hother) as (_ & Hrows & Htotal & _).
    split; [exact Hother|]. split; assumption.
Defined.

(** C3 at [threeNames], by customer name ascending: Alice stays before
    alice. *)
Lemma sort_keeps_alice_order :
  threeNames = ([sale 1 "2023-01-05" "bob" 30 2] ++
                sale 2 "2023-01-06" "Alice" 41 1 :: [] ++
                sale 3 "2023-01-07" "alice" 25 4 :: [])%list /\
  JS.toLowerCase "Alice" = JS.toLowerCase "alice" /\
  exists sorted before between after,
    Engine.sort threeNames "customer_name" Engine.Asc = inr sorted /\
    sorted = (before ++ sale 2 "2023-01-06" "Alice" 41 1 :: between ++
              sale 3 "2023-01-07" "alice" 25 4 :: after)%list.
Proof.
  split; [reflexivity|]. split; [reflexivity|].
  destruct (sort_is_stable threeNames Engine.ByCustomerName Engine.Asc)
    as (sorted & Hsort & _ & _ & _ & _ & Hnames).
  destruct (Hnames eq_refl (sale 2 "2023-01-06" "Alice" 41 1)
                   (sale 3 "2023-01-07" "alice" 25 4)
                   [sale 1 "2023-01-05" "bob" 30 2] [] [] eq_refl eq_refl)
    as (before & between & after & Hsorted).
  exists sorted, before, between, after. split; assumption.
Defined.

(** C4 at the third page of [fiveSales] in pages of two. *)
Lemma pagination_third_page :
  1 <= 3 /\ 1 <= 2 /\
  exists rows_of_page pages,
    Engine.paginate fiveSales 3 2 = inr (rows_of_page, pages) /\
    Z.of_nat (List.length rows_of_page) = 1 /\
    pages = 3.
Proof.
  assert (Hpage : 1 <= 3) by lia.
  assert (Hsize : 1 <= 2) by lia.
  split; [exact Hpage|]. split; [exact Hsize|].
  destruct (pagination_window fiveSales 3 2 Hpage Hsize)
    as (rows_of_page & pages & Heq & _ & Hlen & _ & Hceil & _).
  exists rows_of_page, pages. split; [exact Heq|]. split.
  - rewrite Hlen. reflexivity.
  - cbn in Hceil. lia.
Defined.

(* ===================================================================== *)
(** ** The paginated query as a whole *)
(* ===================================================================== *)

(** The [total] a successful paginated query reports is the number of rows
    its search and filters match, whatever its sort and page. *)
Lemma run_query_total dataset q answer :
  Engine.run_query dataset q = inr answer ->
  Engine.total_matched dataset (Engine.search q) (Engine.query_filters q)
  = inr (total answer).
Proof.
  unfold Engine.run_query, Engine.total_matched.
  destruct (Engine.matching dataset (Engine.search q) (Engine.query_filters q))
    as [e|filtered]; [discriminate|].
  destruct (Engine.sort filtered _ _) as [e|ordered]; [discriminate|].
  destruct (Engine.paginate ordered _ _) as [e|[rows pages]]; [discriminate|].
  intros H. injection H as <-. reflexivity.
Qed.

(** The first page of [fiveSales], newest first, two rows a page. *)
Example run_query_first_page :
  Engine.on_result
    (fun a => (map transaction_id (transactions a), total a, total_pages a))
    (Engine.run_query fiveSales
       {| Engine.search := None;
          Engine.query_filters := request_filters empty_params;
          Engine.sort_field := "date"; Engine.sort_direction := Engine.Desc;
          Engine.page_number := 1; Engine.query_page_size := 2 |})
  = inr ([5; 4], 5, 3).
Proof. reflexivity. Qed.

(** An unsupported sort field is a validation error, not a default. *)
Example run_query_unknown_field :
  Engine.run_query fiveSales
    {| Engine.search := None;
       Engine.query_filters := request_filters empty_params;
       Engine.sort_field := "customer"; Engine.sort_direction := Engine.Asc;
       Engine.page_number := 1; Engine.query_page_size := 10 |}
  = inl (Engine.ValidationError "unknown sort field").
Proof. reflexivity. Qed.

(* ===================================================================== *)
(** ** The page request, key by key *)
(* ===================================================================== *)

(** The page request written out: the search key from the trimmed search,
    the filter keys from [filterParams], the sort and page keys from the
    state. *)
Lemma params_explicit st :
  params st =
  let fp := buildFilterParams (filters st) in
  {| q_search := if JS.truthy (JS.trim (debouncedSearchQuery st))
                 then Some (JS.trim (debouncedSearchQuery st)) else None;
     q_customer_regions := q_customer_regions fp; q_genders := q_genders fp;
     q_age_min := q_age_min fp; q_age_max := q_age_max fp;
     q_product_categories := q_product_categories fp; q_tags := q_tags fp;
     q_payment_methods := q_payment_methods fp; q_date_from := q_date_from fp;
     q_date_to := None;
     q_sort_by := Some (sortBy st); q_sort_order := Some (sortOrder st);
     q_page := Some (currentPage st); q_page_size := Some 10 |}.
Proof.
  cbv zeta. unfold params. cbv zeta. rewrite search_guard.
  destruct (JS.truthy (JS.trim (debouncedSearchQuery st)));
    unfold Params.assign;
    cbn [q_search q_customer_regions q_genders q_age_min q_age_max
         q_product_categories q_tags q_payment_methods q_date_from q_date_to
         q_sort_by q_sort_order q_page q_page_size Params.set_search];
    rewrite !assign_key_absent, filter_search, filter_date_to, filter_sort_by,
      filter_sort_order, filter_page, filter_page_size; reflexivity.
Qed.

(** X3.  [Object.assign(params, filterParams)] never overwrites the sort and
    page keys: for every state the page request carries the state's
    [sortBy], [sortOrder] and [currentPage], and a page size of 10. *)
Theorem request_sort_and_page (st : HomeState) :
  q_sort_by (params st) = Some (sortBy st) /\
  q_sort_order (params st) = Some (sortOrder st) /\
  q_page (params st) = Some (currentPage st) /\
  q_page_size (params st) = Some 10.
Proof. rewrite params_explicit. repeat split. Qed.

(** X4.  For every state the summary request has none of the keys
    [getSummary]'s parameter type omits (search, sort_by, sort_order, page,
    page_size). *)
Theorem summary_request_omits (st : HomeState) :
  q_search (summaryParams st) = None /\
  q_sort_by (summaryParams st) = None /\
  q_sort_order (summaryParams st) = None /\
  q_page (summaryParams st) = None /\
  q_page_size (summaryParams st) = None.
Proof.
  unfold summaryParams.
  rewrite filter_search, filter_sort_by, filter_sort_order, filter_page, filter_page_size.
  repeat split.
Qed.

(** X7.  After [handleSortChange] the next page request is the previous one
    with [sort_by] and [sort_order] replaced by the arguments and [page] by
    1; the summary request is the same, and the dropdown is closed. *)
Theorem sort_change_next_request (field order : string) (st : HomeState) :
  params (handleSortChange field order st) =
    ParamsMore.set_page 1
      (ParamsMore.set_sort_order order (ParamsMore.set_sort_by field (params st))) /\
  summaryParams (handleSortChange field order st) = summaryParams st /\
  sortDropdownOpen (handleSortChange field order st) = false.
Proof.
  rewrite !params_explicit. repeat split.
Qed.

(** X8.  After [handleFilterChange] the next page request has page 1, the
    filter keys of the new filter state, and the search, sort and page size
    of before; the summary request is built from the new filter state. *)
Theorem filter_change_next_request (newFilters : FilterState) (st : HomeState) :
  params (handleFilterChange newFilters st) =
    ParamsMore.set_page 1 (params (Home.setFilters newFilters st)) /\
  q_search (params (handleFilterChange newFilters st)) = q_search (params st) /\
  q_sort_by (params (handleFilterChange newFilters st)) = q_sort_by (params st) /\
  q_sort_order (params (handleFilterChange newFilters st)) = q_sort_order (params st) /\
  summaryParams (handleFilterChange newFilters st) = buildFilterParams newFilters.
Proof.
  rewrite !params_explicit. repeat split.
Qed.

(* ===================================================================== *)
(** ** Settled requests and the page state *)
(* ===================================================================== *)

(** X10.  Whatever the outcome, settling a fetch changes neither the
    debounced search nor the filters nor the sort: the next page request
    differs from the previous one in its [page] key at most, and the
    summary request not at all. *)
Theorem settle_keeps_query (closure st : HomeState) (o : FetchOutcome) :
  let st' := fst (fetchData_settle closure o st) in
  debouncedSearchQuery st' = debouncedSearchQuery st /\
  filters st' = filters st /\
  sortBy st' = sortBy st /\
  sortOrder st' = sortOrder st /\
  params st' = ParamsMore.set_page (currentPage st') (params st) /\
  summaryParams st' = summaryParams st.
Proof.
  cbv zeta. rewrite !params_explicit. unfold fetchData_settle.
  destruct o as [td sd|error].
  - destruct ((total_pages td <? currentPage closure) && (0 <? total_pages td));
      repeat split.
  - destruct (status_is_400 error); repeat split.
Qed.



(* ===================================================================== *)
(** ** One filter, one part of the request *)
(* ===================================================================== *)

Lemma request_key_lowered key f :
  request_key key (buildFilterParams f) = lowered (selected key f).
Proof.
  destruct key; simpl;
    auto using filter_customer_regions, filter_genders, filter_product_categories,
      filter_tags, filter_payment_methods.
Qed.

Lemma selected_withSelected key key' v f :
  selected key' (withSelected key v f) =
  match key, key' with
  | CustomerRegions, CustomerRegions | Genders, Genders
  | ProductCategories, ProductCategories | Tags, Tags
  | PaymentMethods, PaymentMethods => v
  | _, _ => selected key' f
  end.
Proof. destruct key, key'; reflexivity. Qed.

Lemma MultiKey_eqb_eq a b : MultiKey_eqb a b = true <-> a = b.
Proof. destruct a, b; simpl; split; congruence. Qed.

(** X5.  Choosing an age range or a date changes only that filter's part of
    [filterParams]: after [handleAgeRange] the five list keys and
    [date_from] are as before and the age keys are those the chosen string
    gives on its own; after [handleDateRange] the list keys and the age keys
    are as before and [date_from] is the chosen date, absent for the empty
    choice. *)
Theorem age_and_date_touch_own_keys (value : string) (f : FilterState) :
  (forall key, request_key key (buildFilterParams (handleAgeRange value f)) =
               request_key key (buildFilterParams f)) /\
  q_date_from (buildFilterParams (handleAgeRange value f)) =
    q_date_from (buildFilterParams f) /\
  age_keys (buildFilterParams (handleAgeRange value f)) =
    age_keys (buildFilterParams (withAgeRange value)) /\
  (forall key, request_key key (buildFilterParams (handleDateRange value f)) =
               request_key key (buildFilterParams f)) /\
  age_keys (buildFilterParams (handleDateRange value f)) =
    age_keys (buildFilterParams f) /\
  q_date_from (buildFilterParams (handleDateRange value f)) =
    (if JS.truthy value then Some value else None).
Proof.
  repeat split; intros;
    rewrite ?request_key_lowered, ?filter_date_from, ?filter_age_keys; reflexivity.
Qed.

(** X14.  Clearing a filter removes its keys from [filterParams] and leaves
    every other key as it was: a multi-select key loses its list, the age
    range both age keys, the date range [date_from]. *)
Theorem clear_filter_removes_own_keys (key : FilterKey) (f : FilterState) :
  let p := buildFilterParams f in
  let p' := buildFilterParams (clearFilter key f) in
  (forall k, request_key k p' =
             match key with
             | MultiSelect k0 => if MultiKey_eqb k0 k then None else request_key k p
             | _ => request_key k p
             end) /\
  age_keys p' = match key with AgeRange => (None, None) | _ => age_keys p end /\
  q_date_from p' = match key with DateRange => None | _ => q_date_from p end.
Proof.
  cbv zeta. destruct key as [k0| |]; cbn [clearFilter].
  - repeat split.
    + intros k. rewrite !request_key_lowered, selected_withSelected.
      destruct k0, k; reflexivity.
    + rewrite !filter_age_keys. reflexivity.
    + rewrite !filter_date_from. reflexivity.
  - repeat split.
    + intros k. rewrite !request_key_lowered. reflexivity.
    + rewrite filter_age_keys. reflexivity.
    + rewrite !filter_date_from. reflexivity.
  - repeat split.
    + intros k. rewrite !request_key_lowered. reflexivity.
    + rewrite !filter_age_keys. reflexivity.
    + rewrite filter_date_from. reflexivity.
Qed.

(** X6.  Every option of the age dropdown takes effect: whatever the other
    filters, choosing it puts an [age_min] key in [filterParams]. *)
Theorem age_options_take_effect (f : FilterState) :
  Forall (fun option => q_age_min (buildFilterParams (handleAgeRange option f)) <> None)
         ageRangeOptions.
Proof.
  assert (H : forall option,
    q_age_min (buildFilterParams (handleAgeRange option f)) =
    fst (age_keys (buildAgeParams option empty_params))).
  { intros option.
    change (q_age_min (buildFilterParams (handleAgeRange option f)))
      with (fst (age_keys (buildFilterParams (handleAgeRange option f)))).
    now rewrite filter_age_keys. }
  unfold ageRangeOptions.
  repeat (constructor; [rewrite H; discriminate|]). constructor.
Qed.

(* ===================================================================== *)
(** ** Multi-select check boxes *)
(* ===================================================================== *)

Lemma includes_In l v : JS.includes l v = true <-> In v l.
Proof.
  unfold JS.includes. rewrite existsb_exists. split.
  - intros (x & Hx & Heq). apply String.eqb_eq in Heq. now subst.
  - intros H. exists v. split; [assumption|apply String.eqb_refl].
Qed.

Lemma includes_app l r v :
  JS.includes (l ++ r) v = JS.includes l v || JS.includes r v.
Proof. unfold JS.includes. apply existsb_app. Qed.

Lemma includes_without l v w :
  JS.includes (List.filter (fun x => negb (String.eqb x v)) l) w =
  if String.eqb w v then false else JS.includes l w.
Proof.
  induction l as [|x l IH]; simpl.
  - now destruct (String.eqb w v).
  - destruct (String.eqb_spec x v) as [Hxv|Hxv]; simpl; rewrite IH;
      destruct (String.eqb_spec w v) as [Hwv|Hwv]; try reflexivity.
    + subst x. apply String.eqb_neq in Hwv. now rewrite Hwv.
    + subst w. apply not_eq_sym, String.eqb_neq in Hxv. now rewrite Hxv.
Qed.

Lemma without_absent l v :
  JS.includes l v = false ->
  List.filter (fun x => negb (String.eqb x v)) l = l.
Proof.
  induction l as [|x l IH]; simpl; [reflexivity|].
  rewrite (String.eqb_sym v x).
  destruct (String.eqb x v); simpl; [discriminate|].
  intros H. now rewrite IH.
Qed.

(** X11.  Clicking a check box flips it and nothing else: after
    [handleMultiSelect key value] the value is selected exactly when it was
    not, every other value of that key is selected exactly when it was, and
    the other filters are untouched. *)
Theorem toggle_flips_one_box (key : MultiKey) (value : string) (f : FilterState) :
  let f' := handleMultiSelect key value f in
  (forall other,
     JS.includes (selected key f') other =
     if String.eqb other value then negb (JS.includes (selected key f) value)
     else JS.includes (selected key f) other) /\
  (forall key', selected key' f' =
                if MultiKey_eqb key key' then selected key f' else selected key' f) /\
  fs_age_range f' = fs_age_range f /\
  fs_date_range f' = fs_date_range f.
Proof.
  cbv zeta. unfold handleMultiSelect. cbv zeta. repeat split.
  - intros other. rewrite selected_withSelected.
    replace (match key, key with
             | CustomerRegions, CustomerRegions | Genders, Genders
             | ProductCategories, ProductCategories | Tags, Tags
             | PaymentMethods, PaymentMethods => _
             | _, _ => _ end)
      with (if JS.includes (selected key f) value
            then List.filter (fun v => negb (String.eqb v value)) (selected key f)
            else (selected key f ++ [value])%list)
      by (destruct key; reflexivity).
    destruct (JS.includes (selected key f) value) eqn:Hin.
    + rewrite includes_without. destruct (String.eqb other value); reflexivity.
    + rewrite includes_app. unfold JS.includes at 2. simpl.
      destruct (String.eqb_spec other value) as [->|Hne].
      * rewrite Hin. reflexivity.
      * now rewrite orb_false_r.
  - intros key'. rewrite !selected_withSelected. destruct key, key'; reflexivity.
Qed.

Lemma filter_NoDup {A} (p : A -> bool) (l : list A) :
  NoDup l -> NoDup (List.filter p l).
Proof.
  induction 1 as [|x l Hx Hl IH]; simpl; [constructor|].
  destruct (p x); [|assumption].
  constructor; [|assumption]. rewrite filter_In. tauto.
Qed.

(** A selection without repeated values stays without repeated values
    under [handleMultiSelect]. *)
Lemma toggle_keeps_NoDup (key : MultiKey) (value : string) (f : FilterState)
  (Hnodup : NoDup (selected key f)) :
  NoDup (selected key (handleMultiSelect key value f)).
Proof.
  unfold handleMultiSelect. cbv zeta. rewrite selected_withSelected.
  assert (Hgoal : NoDup (if JS.includes (selected key f) value
                         then List.filter (fun v => negb (String.eqb v value)) (selected key f)
                         else (selected key f ++ [value])%list)).
  { destruct (JS.includes (selected key f) value) eqn:Hin.
    - now apply filter_NoDup.
    - apply NoDup_app; [assumption|repeat constructor; simpl; tauto|].
      intros x Hx [<-|[]]. apply includes_In in Hx. congruence. }
  destruct key; exact Hgoal.
Qed.

(** X12.  No handler of the filter bar introduces a repeated value: if
    every selection is free of repetitions, it still is after
    [handleMultiSelect], [clearFilter], [handleAgeRange], [handleDateRange]
    and [handleRefresh]; the starting state is free of repetitions. *)
Theorem selections_stay_duplicate_free (f : FilterState)
  (Hfree : duplicate_free f) :
  (forall key value, duplicate_free (handleMultiSelect key value f)) /\
  (forall key, duplicate_free (clearFilter key f)) /\
  (forall value, duplicate_free (handleAgeRange value f)) /\
  (forall value, duplicate_free (handleDateRange value f)) /\
  duplicate_free (handleRefresh f) /\
  duplicate_free noFilters.
Proof.
  assert (Hnone : duplicate_free noFilters) by (intros []; constructor).
  repeat split; try assumption.
  - intros key value key'.
    destruct (MultiKey_eqb key key') eqn:E.
    + apply MultiKey_eqb_eq in E as <-. apply toggle_keeps_NoDup, (Hfree _).
    + replace (selected key' (handleMultiSelect key value f)) with (selected key' f);
        [apply (Hfree _)|].
      unfold handleMultiSelect. cbv zeta. rewrite selected_withSelected.
      destruct key, key'; try reflexivity; discriminate.
  - intros [k| |] key'; cbn [clearFilter].
    + rewrite selected_withSelected.
      destruct k, key';
        try (match goal with |- NoDup (selected ?k _) => exact (Hfree k) end);
        constructor.
    + destruct key'; match goal with |- NoDup (selected ?k _) => exact (Hfree k) end.
    + destruct key'; match goal with |- NoDup (selected ?k _) => exact (Hfree k) end.
  - intros value key'.
    destruct key'; match goal with |- NoDup (selected ?k _) => exact (Hfree k) end.
  - intros value key'.
    destruct key'; match goal with |- NoDup (selected ?k _) => exact (Hfree k) end.
Qed.

Lemma selections_stay_duplicate_free_two_regions :
  duplicate_free twoRegions /\
  duplicate_free (handleMultiSelect CustomerRegions "North" twoRegions).
Proof.
  assert (H : duplicate_free twoRegions).
  { intros []; cbn; repeat constructor; simpl; intuition discriminate. }
  split; [exact H|].
  apply (selections_stay_duplicate_free twoRegions H).
Defined.

(** X13.  Clicking the same check box twice: the selection of that key ends
    as it was when the value was not selected; when it was selected, it
    ends with the value taken out and put back at the end.  In the first
    case the whole filter state is restored. *)
Theorem toggle_twice (key : MultiKey) (value : string) (f : FilterState) :
  selected key (handleMultiSelect key value (handleMultiSelect key value f)) =
    (if JS.includes (selected key f) value
     then (List.filter (fun v => negb (String.eqb v value)) (selected key f)
           ++ [value])%list
     else selected key f) /\
  (JS.includes (selected key f) value = false ->
   handleMultiSelect key value (handleMultiSelect key value f) = f).
Proof.
  assert (Hsel : forall g, selected key (handleMultiSelect key value g) =
    if JS.includes (selected key g) value
    then List.filter (fun v => negb (String.eqb v value)) (selected key g)
    else (selected key g ++ [value])%list).
  { intros g. unfold handleMultiSelect. cbv zeta. rewrite selected_withSelected.
    destruct key; reflexivity. }
  assert (Hfirst :
    selected key (handleMultiSelect key value (handleMultiSelect key value f)) =
    (if JS.includes (selected key f) value
     then (List.filter (fun v => negb (String.eqb v value)) (selected key f)
           ++ [value])%list
     else selected key f)).
  { rewrite Hsel, Hsel.
    destruct (JS.includes (selected key f) value) eqn:Hin.
    - rewrite includes_without, String.eqb_refl. reflexivity.
    - rewrite includes_app. unfold JS.includes at 2. simpl.
      rewrite String.eqb_refl, orb_true_r, filter_app. simpl.
      rewrite String.eqb_refl. simpl. rewrite app_nil_r.
      now apply without_absent. }
  split; [exact Hfirst|].
  intros Hin. rewrite Hin in Hfirst.
  unfold handleMultiSelect at 1. cbv zeta.
  change (if JS.includes (selected key (handleMultiSelect key value f)) value
          then List.filter (fun v => negb (String.eqb v value))
                 (selected key (handleMultiSelect key value f))
          else (selected key (handleMultiSelect key value f) ++ [value])%list)
    with (let g := handleMultiSelect key value f in
          if JS.includes (selected key g) value
          then List.filter (fun v => negb (String.eqb v value)) (selected key g)
          else (selected key g ++ [value])%list).
  cbv zeta. rewrite <- Hsel, Hfirst.
  destruct f, key; reflexivity.
Qed.

Lemma toggle_twice_two_regions :
  JS.includes (selected CustomerRegions twoRegions) "East" = false /\
  handleMultiSelect CustomerRegions "East"
    (handleMultiSelect CustomerRegions "East" twoRegions) = twoRegions.
Proof.
  split; [reflexivity|].
  apply (toggle_twice CustomerRegions "East" twoRegions). reflexivity.
Defined.

(** X15.  Ticking a value that was not selected sends it: the request list
    of that key becomes the lowercased earlier selection followed by the
    lowercased value, and the other keys of [filterParams] stay as they
    were. *)
Theorem tick_is_sent (key : MultiKey) (value : string) (f : FilterState)
  (Hnew : JS.includes (selected key f) value = false) :
  let p := buildFilterParams f in
  let p' := buildFilterParams (handleMultiSelect key value f) in
  request_key key p' =
    Some (map JS.toLowerCase (selected key f) ++ [JS.toLowerCase value])%list /\
  (forall key', MultiKey_eqb key key' = false -> request_key key' p' = request_key key' p) /\
  age_keys p' = age_keys p /\
  q_date_from p' = q_date_from p.
Proof.
  cbv zeta.
  assert (Hsel : selected key (handleMultiSelect key value f)
                 = (selected key f ++ [value])%list).
  { unfold handleMultiSelect. cbv zeta. rewrite Hnew, selected_withSelected.
    destruct key; reflexivity. }
  repeat split.
  - rewrite request_key_lowered, Hsel. unfold lowered.
    rewrite length_app, map_app. simpl.
    destruct (Z.ltb_spec 0 (Z.of_nat (List.length (selected key f) + 1))); [reflexivity|lia].
  - intros key' Hne. rewrite !request_key_lowered. f_equal.
    unfold handleMultiSelect. cbv zeta. rewrite selected_withSelected.
    destruct key, key'; try reflexivity; discriminate.
  - rewrite !filter_age_keys. unfold handleMultiSelect. cbv zeta.
    destruct key; reflexivity.
  - rewrite !filter_date_from. unfold handleMultiSelect. cbv zeta.
    destruct key; reflexivity.
Qed.

Lemma tick_is_sent_east :
  JS.includes (selected CustomerRegions twoRegions) "East" = false /\
  request_key CustomerRegions
    (buildFilterParams (handleMultiSelect CustomerRegions "East" twoRegions))
  = Some ["north"; "south"; "east"].
Proof.
  split; [reflexivity|].
  apply (tick_is_sent CustomerRegions "East" twoRegions). reflexivity.
Defined.

(* ===================================================================== *)
(** ** Option values and the split *)
(* ===================================================================== *)

(** The first piece of a split never holds the separator. *)
Lemma split_head_clean sep s :
  match JS.split sep s with
  | piece :: _ => Forall (fun c => c <> sep) (list_ascii_of_string piece)
  | [] => False
  end.
Proof.
  induction s as [|c s IH]; simpl; [constructor|].
  destruct (Ascii.eqb_spec c sep) as [->|Hc]; [constructor|].
  destruct (JS.split sep s) as [|piece pieces]; [contradiction|].
  simpl. constructor; assumption.
Qed.

(** X1.  Writing a sort field and an order as [field_order] and splitting
    the value at '_' gives the field back exactly when the field's name has
    no '_'; when the order has none either, the whole pair comes back. *)
Theorem sort_field_recovered_iff (field order : string) :
  (fst (sortOptionArgs (sortOptionValue field order)) = Some field <->
   Forall (fun c => c <> "_"%char) (list_ascii_of_string field)) /\
  (Forall (fun c => c <> "_"%char) (list_ascii_of_string field) ->
   Forall (fun c => c <> "_"%char) (list_ascii_of_string order) ->
   sortOptionArgs (sortOptionValue field order) = (Some field, Some order)).
Proof.
  split; [split|].
  - unfold sortOptionArgs, JS.destructure2. cbn [fst nth_error].
    pose proof (split_head_clean "_" (sortOptionValue field order)) as Hhead.
    destruct (JS.split "_" (sortOptionValue field order)) as [|piece pieces];
      [contradiction|].
    intros H. injection H as <-. exact Hhead.
  - intros Hf. unfold sortOptionArgs, sortOptionValue, JS.destructure2.
    change (field ++ "_" ++ order) with (field ++ String "_" order).
    rewrite (split_at_first _ _ _ Hf). reflexivity.
  - intros Hf Ho. unfold sortOptionArgs, sortOptionValue, JS.destructure2.
    change (field ++ "_" ++ order) with (field ++ String "_" order).
    rewrite (split_at_first _ _ _ Hf), (split_whole _ _ Ho). reflexivity.
Qed.

Lemma sort_field_recovered_quantity :
  Forall (fun c => c <> "_"%char) (list_ascii_of_string "quantity") /\
  Forall (fun c => c <> "_"%char) (list_ascii_of_string "desc") /\
  sortOptionArgs (sortOptionValue "quantity" "desc") = (Some "quantity", Some "desc").
Proof.
  assert (Hf : Forall (fun c => c <> "_"%char) (list_ascii_of_string "quantity"))
    by (repeat constructor; discriminate).
  assert (Ho : Forall (fun c => c <> "_"%char) (list_ascii_of_string "desc"))
    by (repeat constructor; discriminate).
  split; [exact Hf|]. split; [exact Ho|].
  exact (proj2 (sort_field_recovered_iff "quantity" "desc") Hf Ho).
Defined.

(* ===================================================================== *)
(** ** The search value *)
(* ===================================================================== *)

Lemma trimStart_head s c rest :
  JS.trimStart s = String c rest -> JS.isWhiteSpace c = false.
Proof.
  induction s as [|a s IH]; simpl; [discriminate|].
  destruct (JS.isWhiteSpace a) eqn:Ha; [exact IH|].
  intros H. injection H as <- _. exact Ha.
Qed.

Lemma trimEnd_head c s c' rest :
  JS.trimEnd (String c s) = String c' rest -> c' = c.
Proof.
  simpl. destruct (JS.trimEnd s); [destruct (JS.isWhiteSpace c)|];
    intros H; [discriminate| |]; now injection H.
Qed.

Lemma trimEnd_last s : forall front c,
  JS.trimEnd s = front ++ String c "" -> JS.isWhiteSpace c = false.
Proof.
  induction s as [|a s IH]; intros front c; simpl.
  - destruct front; discriminate.
  - destruct (JS.trimEnd s) as [|b t] eqn:Ht.
    + destruct (JS.isWhiteSpace a) eqn:Ha.
      * destruct front; discriminate.
      * destruct front as [|x [|y front]]; simpl; intros H; try discriminate.
        now injection H as <-.
    + destruct front as [|x front]; simpl; intros H; [discriminate|].
      injection H as _ H. eapply IH. exact H.
Qed.

Lemma trimStart_fixed s :
  (forall c rest, s = String c rest -> JS.isWhiteSpace c = false) ->
  JS.trimStart s = s.
Proof.
  destruct s as [|c s]; simpl; [reflexivity|].
  intros H. now rewrite (H c s eq_refl).
Qed.

Lemma trimEnd_idem s : JS.trimEnd (JS.trimEnd s) = JS.trimEnd s.
Proof.
  induction s as [|a s IH]; simpl; [reflexivity|].
  destruct (JS.trimEnd s) as [|b t] eqn:Ht.
  - destruct (JS.isWhiteSpace a) eqn:Ha; simpl; [reflexivity|now rewrite Ha].
  - change (JS.trimEnd (String a (String b t)))
      with (match JS.trimEnd (String b t) with
            | EmptyString => if JS.isWhiteSpace a then EmptyString else String a EmptyString
            | u => String a u
            end).
    rewrite IH. reflexivity.
Qed.

(** X2.  Whenever the page request has a [search] key, its value is not
    empty, begins and ends with a character that is not white space, and
    trimming it again changes nothing. *)
Theorem search_value_is_trimmed (st : HomeState) (v : string)
  (Hkey : q_search (params st) = Some v) :
  v <> "" /\
  (forall c rest, v = String c rest -> JS.isWhiteSpace c = false) /\
  (forall front c, v = front ++ String c "" -> JS.isWhiteSpace c = false) /\
  JS.trim v = v.
Proof.
  rewrite transactions_search in Hkey.
  destruct (JS.truthy (JS.trim (debouncedSearchQuery st))) eqn:Hnonblank;
    [|discriminate].
  injection Hkey as <-. apply truthy_true in Hnonblank.
  assert (Hhead : forall c rest,
    JS.trim (debouncedSearchQuery st) = String c rest -> JS.isWhiteSpace c = false).
  { unfold JS.trim. intros c rest H.
    destruct (JS.trimStart (debouncedSearchQuery st)) as [|a t] eqn:Hstart;
      [discriminate|].
    apply trimEnd_head in H as ->. eapply trimStart_head; eassumption. }
  repeat split.
  - assumption.
  - exact Hhead.
  - intros front c H. unfold JS.trim in H. eapply trimEnd_last; eassumption.
  - unfold JS.trim at 1. rewrite (trimStart_fixed _ Hhead).
    unfold JS.trim. apply trimEnd_idem.
Qed.

Lemma search_value_alice :
  q_search (params searchingAlice) = Some "alice" /\ JS.trim "alice" = "alice".
Proof.
  assert (H : q_search (params searchingAlice) = Some "alice") by reflexivity.
  split; [exact H|].
  apply (search_value_is_trimmed searchingAlice "alice" H).
Defined.

(* ===================================================================== *)
(** ** Messages *)
(* ===================================================================== *)

(** X18.  The text shown for a 400 answer is never empty: a missing or
    empty [detail] is replaced by the fixed text. *)
Theorem error_message_not_empty (error : FetchError) : errorMessage error <> "".
Proof.
  unfold errorMessage.
  destruct (response error) as [[code [[[d|]]|]]|]; try discriminate.
  destruct (JS.truthy d) eqn:Hd; [now apply truthy_true|discriminate].
Qed.

(* ===================================================================== *)
(** ** Cells of the table *)
(* ===================================================================== *)

(** X16.  [formatPhoneNumber] is idempotent, changes a number only by
    putting "+91 " in front of it, and a ten-character number always comes
    out with the +91 prefix. *)
Theorem formatPhoneNumber_idempotent (phone : string) :
  formatPhoneNumber (formatPhoneNumber phone) = formatPhoneNumber phone /\
  (formatPhoneNumber phone = phone \/ formatPhoneNumber phone = "+91 " ++ phone) /\
  (String.length phone = 10%nat ->
   JS.startsWith (formatPhoneNumber phone) "+91" = true).
Proof.
  unfold formatPhoneNumber.
  destruct (JS.startsWith phone "+91") eqn:Hprefix.
  - rewrite Hprefix. auto.
  - destruct (Nat.eqb_spec (String.length phone) 10) as [Hlen|Hlen].
    + repeat split; auto.
    + rewrite Hprefix. destruct (Nat.eqb_spec (String.length phone) 10); [contradiction|].
      repeat split; auto.
Qed.

Lemma formatPhoneNumber_ten_digits :
  String.length "9876543210" = 10%nat /\
  JS.startsWith (formatPhoneNumber "9876543210") "+91" = true.
Proof.
  split; [reflexivity|].
  apply (formatPhoneNumber_idempotent "9876543210"). reflexivity.
Defined.

(* ===================================================================== *)
(** ** Numbers in cells *)
(* ===================================================================== *)











Section TableFacts.

Variable formatCurrency : Q -> string.


End TableFacts.

